(** * EIP-8082 on-chain event subscriptions: entity and manager

A shallow embedding of [core/types] (the [Subscription] entity, its
accounting methods and its RLP conversion) and of
[core/vm/subscription_manager.go] (the [SubscriptionManager]), followed
by the properties of the deposit accounting and of the notification
fan-out.

Conventions.
- [*big.Int] is [Z]; [uint64] is a [Z] in [0, 2^64) with the wrap-around
  of the Go operators written out ([wrap64]).
- [common.Address], [common.Hash], [[4]byte] and [[]byte] are
  [list byte]; [x.Bytes()] is the list itself.
- A method with a pointer receiver that mutates it returns the updated
  record next to its Go result.
- Manager operations thread the [StateDB] explicitly and return it
  first; a Go [error] is an [option Error] with [None] for [nil]. *)

From Stdlib Require Import ZArith Lia Strings.Byte Strings.String.
From stdpp Require Import base option list gmap.

#[local] Open Scope Z_scope.

Abbreviation Address := (list byte) (only parsing).
Abbreviation Hash := (list byte) (only parsing).

#[global] Instance byte_eq_dec : EqDecision byte := Byte.byte_eq_dec.
#[global] Instance byte_countable : Countable byte :=
  inj_countable Byte.to_N Byte.of_N Byte.of_to_N.

(** ** Fixed-width unsigned arithmetic *)

Definition is_uint64 (z : Z) : Prop := 0 <= z < 2 ^ 64.

(** The value a Go [uint64] expression holds after wrap-around. *)
Definition wrap64 (z : Z) : Z := z mod 2 ^ 64.

(** ** package types *)

Module types.

Record Subscription := {
  ID : Hash;
  TargetContract : Address;
  EventSignature : Hash;
  SubscriberContract : Address;
  CallbackAddress : Address;
  CallbackSelector : list byte;
  GasLimit : Z;
  GasPrice : Z;
  DepositBalance : Z;
  Active : bool
}.

(** [subscriptionRLP]: the persisted nine-field tuple, without [ID]. *)
Record subscriptionRLP := {
  rlpTargetContract : Address;
  rlpEventSignature : Hash;
  rlpSubscriberContract : Address;
  rlpCallbackAddress : Address;
  rlpCallbackSelector : list byte;
  rlpGasLimit : Z;
  rlpGasPrice : Z;
  rlpDepositBalance : Z;
  rlpActive : bool
}.

Record CallbackExecution := {
  SubscriptionID : Hash;
  SubscriberAddress : Address;
  cbCallbackAddress : Address;
  CallbackData : list byte;
  cbGasLimit : Z;
  cbGasPrice : Z;
  OriginalOrigin : Address
}.

Record Log := {
  LogAddress : Address;
  Topics : list Hash;
  Data : list byte
}.

(** In-place assignment to the [DepositBalance] big integer. *)
Definition setDepositBalance (s : Subscription) (b : Z) : Subscription :=
  {| ID := ID s;
     TargetContract := TargetContract s;
     EventSignature := EventSignature s;
     SubscriberContract := SubscriberContract s;
     CallbackAddress := CallbackAddress s;
     CallbackSelector := CallbackSelector s;
     GasLimit := GasLimit s;
     GasPrice := GasPrice s;
     DepositBalance := b;
     Active := Active s |}.

Definition setActive (s : Subscription) (a : bool) : Subscription :=
  {| ID := ID s;
     TargetContract := TargetContract s;
     EventSignature := EventSignature s;
     SubscriberContract := SubscriberContract s;
     CallbackAddress := CallbackAddress s;
     CallbackSelector := CallbackSelector s;
     GasLimit := GasLimit s;
     GasPrice := GasPrice s;
     DepositBalance := DepositBalance s;
     Active := a |}.

Definition setGas (s : Subscription) (gasLimit gasPrice : Z) : Subscription :=
  {| ID := ID s;
     TargetContract := TargetContract s;
     EventSignature := EventSignature s;
     SubscriberContract := SubscriberContract s;
     CallbackAddress := CallbackAddress s;
     CallbackSelector := CallbackSelector s;
     GasLimit := gasLimit;
     GasPrice := gasPrice;
     DepositBalance := DepositBalance s;
     Active := Active s |}.

(** [GasCost]: [new(big.Int).Mul(new(big.Int).SetUint64(s.GasLimit), s.GasPrice)]. *)
Definition GasCost (s : Subscription) : Z := GasLimit s * GasPrice s.

(** [HasSufficientDeposit]: [s.DepositBalance.Cmp(s.GasCost()) >= 0]. *)
Definition HasSufficientDeposit (s : Subscription) : bool :=
  GasCost s <=? DepositBalance s.

Definition DeductGas (s : Subscription) : Subscription * bool :=
  if negb (HasSufficientDeposit s) then (s, false)
  else (setDepositBalance s (DepositBalance s - GasCost s), true).

(** [RefundGas]: [unusedGas := s.GasLimit - gasUsed] is a [uint64]
    subtraction; the product and the sum are on big integers. *)
Definition RefundGas (s : Subscription) (gasUsed : Z) : Subscription :=
  let unusedGas := wrap64 (GasLimit s - gasUsed) in
  let refund := unusedGas * GasPrice s in
  setDepositBalance s (DepositBalance s + refund).

Section Identity.
(** [crypto.Keccak256Hash(data ...[]byte)], supplied by the crypto package. *)
Variable Keccak256Hash : list (list byte) -> Hash.

Definition ComputeSubscriptionID
    (target : Address) (eventSig : Hash) (subscriber : Address) : Hash :=
  Keccak256Hash [target; eventSig; subscriber].

Section Codec.
(** [rlp.Encode] and [rlp.Stream.Decode] at type [subscriptionRLP],
    supplied by the rlp package; either may fail. *)
Variable wire : Type.
Variable rlp_Encode : subscriptionRLP -> option wire.
Variable rlp_Decode : wire -> option subscriptionRLP.

Definition EncodeRLP (s : Subscription) : option wire :=
  rlp_Encode
    {| rlpTargetContract := TargetContract s;
       rlpEventSignature := EventSignature s;
       rlpSubscriberContract := SubscriberContract s;
       rlpCallbackAddress := CallbackAddress s;
       rlpCallbackSelector := CallbackSelector s;
       rlpGasLimit := GasLimit s;
       rlpGasPrice := GasPrice s;
       rlpDepositBalance := DepositBalance s;
       rlpActive := Active s |}.

(** [DecodeRLP]: on a decoding error the receiver is left as it was
    ([None]); otherwise every field of the receiver is assigned. *)
Definition DecodeRLP (stream : wire) : option Subscription :=
  match rlp_Decode stream with
  | None => None
  | Some dec =>
      Some {| ID := ComputeSubscriptionID (rlpTargetContract dec)
                      (rlpEventSignature dec) (rlpSubscriberContract dec);
              TargetContract := rlpTargetContract dec;
              EventSignature := rlpEventSignature dec;
              SubscriberContract := rlpSubscriberContract dec;
              CallbackAddress := rlpCallbackAddress dec;
              CallbackSelector := rlpCallbackSelector dec;
              GasLimit := rlpGasLimit dec;
              GasPrice := rlpGasPrice dec;
              DepositBalance := rlpDepositBalance dec;
              Active := rlpActive dec |}
  end.
End Codec.
End Identity.

End types.

(** ** package vm *)

Module vm.
Import types.

(** The two sentinel errors of the manager. *)
Inductive Error := ErrInvalidSubscription | ErrInsufficientDeposit.

(** Modelled from the spec: the [StateDB] registry behind the manager is
    an interface whose implementation is not part of these sources.  The
    spec gives its contract: [get] by identity, [set] that fully
    overwrites the record of an identity, an enumeration by (target,
    event signature) in a stable append order backed by an explicit
    order-preserving index, and [appendLog].  The manager reads a record,
    changes its own copy and writes it back, so the registry holds values. *)
Record StateDB := {
  subscriptions : gmap Hash Subscription;
  order : list Hash;
  logs : list Log
}.

Definition emptyStateDB : StateDB :=
  {| subscriptions := ∅; order := []; logs := [] |}.

Module statedb.

Definition GetSubscription (db : StateDB) (id : Hash) : option Subscription :=
  subscriptions db !! id.

Definition SetSubscription (db : StateDB) (id : Hash) (sub : Subscription) : StateDB :=
  {| subscriptions := <[id := sub]> (subscriptions db);
     order := match subscriptions db !! id with
              | Some _ => order db
              | None => order db ++ [id]
              end;
     logs := logs db |}.

Definition matches (target : Address) (eventSig : Hash) (sub : Subscription) : Prop :=
  TargetContract sub = target ∧ EventSignature sub = eventSig.

#[global] Instance matches_dec target eventSig sub :
  Decision (matches target eventSig sub).
Proof. unfold matches. apply _. Defined.

Definition GetSubscribers (db : StateDB) (target : Address) (eventSig : Hash)
    : list Subscription :=
  filter (matches target eventSig)
         (omap (λ id, subscriptions db !! id) (order db)).

Definition AddLog (db : StateDB) (l : Log) : StateDB :=
  {| subscriptions := subscriptions db;
     order := order db;
     logs := logs db ++ [l] |}.

End statedb.

(** Which arm of the loop body of [NotifySubscribers] a candidate takes. *)
Inductive Branch :=
  | SkipInactive
  | SkipInsufficient
  | SkipDeductFailed
  | Notified.

Module SubscriptionManager.
Section Manager.
Variable Keccak256Hash : list (list byte) -> Hash.
(** [common.BytesToHash] and [params.SubscriptionManagerAddress]. *)
Variable BytesToHash : list byte -> Hash.
Variable SubscriptionManagerAddress : Address.

(** The log entries the manager emits. *)
Definition createdLog (subID : Hash) (target : Address) (eventSig : Hash)
    (subscriber : Address) : Log :=
  {| LogAddress := SubscriptionManagerAddress;
     Topics := [BytesToHash (list_byte_of_string "SubscriptionCreated");
                subID; BytesToHash target; BytesToHash subscriber];
     Data := eventSig |}.

Definition removedLog (subID : Hash) : Log :=
  {| LogAddress := SubscriptionManagerAddress;
     Topics := [BytesToHash (list_byte_of_string "SubscriptionRemoved"); subID];
     Data := [] |}.

Definition insufficientDepositLog (subID : Hash) : Log :=
  {| LogAddress := SubscriptionManagerAddress;
     Topics := [BytesToHash (list_byte_of_string "InsufficientDeposit"); subID];
     Data := [] |}.

Definition Subscribe (db : StateDB)
        (target : Address) (eventSig : Hash) (subscriber callback : Address)
        (selector : list byte) (gasLimit gasPrice : Z)
        : StateDB * (Hash * option Error) :=
  let subID := ComputeSubscriptionID Keccak256Hash target eventSig subscriber in
  if match statedb.GetSubscription db subID with
     | Some existing => Active existing
     | None => false
     end
  then (db, (subID, None))
  else
    let sub := {| ID := subID;
                  TargetContract := target;
                  EventSignature := eventSig;
                  SubscriberContract := subscriber;
                  CallbackAddress := callback;
                  CallbackSelector := selector;
                  GasLimit := gasLimit;
                  GasPrice := gasPrice;
                  DepositBalance := 0;
                  Active := true |} in
    let db := statedb.SetSubscription db subID sub in
    let db := statedb.AddLog db (createdLog subID target eventSig subscriber) in
    (db, (subID, None)).

Definition Unsubscribe (db : StateDB)
    (target : Address) (eventSig : Hash) (subscriber : Address)
    : StateDB * option Error :=
  let subID := ComputeSubscriptionID Keccak256Hash target eventSig subscriber in
  match statedb.GetSubscription db subID with
  | None => (db, None)
  | Some sub =>
      if negb (Active sub) then (db, None)
      else
        let sub := setActive sub false in
        let db := statedb.SetSubscription db subID sub in
        let db := statedb.AddLog db (removedLog subID) in
        (db, None)
  end.

(** One iteration of the [for _, sub := range subscribers] loop. *)
Definition notifyOne (eventData : list byte) (origin : Address)
    (db : StateDB) (callbacks : list CallbackExecution) (sub : Subscription)
    : StateDB * list CallbackExecution * Branch :=
  if negb (Active sub) then (db, callbacks, SkipInactive)
  else if negb (HasSufficientDeposit sub) then
    (statedb.AddLog db (insufficientDepositLog (ID sub)), callbacks, SkipInsufficient)
  else
    let '(sub, ok) := DeductGas sub in
    if negb ok then (db, callbacks, SkipDeductFailed)
    else
      let db := statedb.SetSubscription db (ID sub) sub in
      let callbackData := CallbackSelector sub ++ eventData in
      (db,
       callbacks ++ [{| SubscriptionID := ID sub;
                        SubscriberAddress := SubscriberContract sub;
                        cbCallbackAddress := CallbackAddress sub;
                        CallbackData := callbackData;
                        cbGasLimit := GasLimit sub;
                        cbGasPrice := GasPrice sub;
                        OriginalOrigin := origin |}],
       Notified).

(** The loop over the snapshot returned by [GetSubscribers]; the third
    component records the arm each candidate took. *)
Fixpoint notifyLoop (eventData : list byte) (origin : Address)
    (subscribers : list Subscription)
    (db : StateDB) (callbacks : list CallbackExecution)
    : StateDB * list CallbackExecution * list Branch :=
  match subscribers with
  | [] => (db, callbacks, [])
  | sub :: rest =>
      let '(db, callbacks, b) := notifyOne eventData origin db callbacks sub in
      let '(db, callbacks, bs) := notifyLoop eventData origin rest db callbacks in
      (db, callbacks, b :: bs)
  end.

Definition NotifySubscribers (db : StateDB)
    (target : Address) (eventSig : Hash) (eventData : list byte) (origin : Address)
    : StateDB * list CallbackExecution :=
  let subscribers := statedb.GetSubscribers db target eventSig in
  let '(db, callbacks, _) := notifyLoop eventData origin subscribers db [] in
  (db, callbacks).

Definition Deposit (db : StateDB) (subID : Hash) (amount : Z)
    : StateDB * option Error :=
  match statedb.GetSubscription db subID with
  | None => (db, Some ErrInvalidSubscription)
  | Some sub =>
      let sub := setDepositBalance sub (DepositBalance sub + amount) in
      (statedb.SetSubscription db subID sub, None)
  end.

Definition Withdraw (db : StateDB) (subID : Hash) (amount : Z)
    : StateDB * option Error :=
  match statedb.GetSubscription db subID with
  | None => (db, Some ErrInvalidSubscription)
  | Some sub =>
      if DepositBalance sub <? amount then (db, Some ErrInsufficientDeposit)
      else
        let sub := setDepositBalance sub (DepositBalance sub - amount) in
        (statedb.SetSubscription db subID sub, None)
  end.

Definition GetBalance (db : StateDB) (subID : Hash) : Z :=
  match statedb.GetSubscription db subID with
  | None => 0
  | Some sub => DepositBalance sub
  end.

Definition GetSubscription (db : StateDB) (subID : Hash) : option Subscription :=
  statedb.GetSubscription db subID.

Definition RefundGas (db : StateDB) (subID : Hash) (gasUsed : Z) : StateDB :=
  match statedb.GetSubscription db subID with
  | None => db
  | Some sub =>
      let sub := types.RefundGas sub gasUsed in
      statedb.SetSubscription db subID sub
  end.

Definition UpdateSubscription (db : StateDB) (subID : Hash) (gasLimit gasPrice : Z)
    : StateDB * option Error :=
  match statedb.GetSubscription db subID with
  | None => (db, Some ErrInvalidSubscription)
  | Some sub =>
      if negb (Active sub) then (db, Some ErrInvalidSubscription)
      else
        let sub := setGas sub gasLimit gasPrice in
        (statedb.SetSubscription db subID sub, None)
  end.

End Manager.
End SubscriptionManager.
End vm.

Import types vm.

(** * Derived notions *)

(** Well-formed registries: the enumeration index has no duplicates and
    lists stored identities only, and every record is stored under its own
    [ID]. *)
Definition wf (db : StateDB) : Prop :=
  NoDup (order db)
  ∧ Forall (λ id, is_Some (subscriptions db !! id)) (order db)
  ∧ map_Forall (λ id sub, ID sub = id) (subscriptions db).

#[global] Instance wf_dec db : Decision (wf db).
Proof. unfold wf. apply _. Defined.

(** A candidate is charged exactly when it is active and funded. *)
Definition eligible (sub : Subscription) : bool := Active sub && HasSufficientDeposit sub.

Definition charged (sub : Subscription) : Subscription :=
  setDepositBalance sub (DepositBalance sub - GasCost sub).

(** Every stored record has a non-negative deposit. *)
Definition nonneg (db : StateDB) : Prop :=
  map_Forall (λ _ sub, 0 ≤ DepositBalance sub) (subscriptions db).

(** Every stored record has a gas price as the data model types it:
    a non-negative integer. *)
Definition price_nonneg (db : StateDB) : Prop :=
  map_Forall (λ _ sub, 0 ≤ GasPrice sub) (subscriptions db).

(** The descriptor the loop of [NotifySubscribers] appends for a candidate. *)
Definition mkCallback (eventData : list byte) (origin : Address)
    (sub : Subscription) : CallbackExecution :=
  {| SubscriptionID := ID sub;
     SubscriberAddress := SubscriberContract sub;
     cbCallbackAddress := CallbackAddress sub;
     CallbackData := CallbackSelector sub ++ eventData;
     cbGasLimit := GasLimit sub;
     cbGasPrice := GasPrice sub;
     OriginalOrigin := origin |}.

(** A candidate that is active but cannot pay for one callback. *)
Definition underfunded (sub : Subscription) : bool :=
  Active sub && negb (HasSufficientDeposit sub).

(** The sum of all deposits held by the registry. *)
Definition totalDeposits (db : StateDB) : Z :=
  map_fold (λ _ sub acc, DepositBalance sub + acc) 0 (subscriptions db).

(** What a batch of callbacks was charged: the sum of [GasLimit * GasPrice]. *)
Definition totalCharge (callbacks : list CallbackExecution) : Z :=
  foldr (λ cb acc, cbGasLimit cb * cbGasPrice cb + acc) 0 callbacks.

(** Every record is stored under its [ID], and that [ID] is the hash of
    its (target, event signature, subscriber). *)
Definition identity_ok (Keccak256Hash : list (list byte) -> Hash) (db : StateDB) : Prop :=
  map_Forall (λ id sub,
      ID sub = id
      ∧ id = ComputeSubscriptionID Keccak256Hash (TargetContract sub)
               (EventSignature sub) (SubscriberContract sub))
    (subscriptions db).

(** * A concrete environment

    Stand-ins for the external primitives, and the registries of the
    end-to-end scenario, used to run the model on concrete inputs. *)

(** The concatenation of the inputs, in place of Keccak-256. *)
Definition concatHash (data : list (list byte)) : Hash := mjoin data.

Definition rawBytesToHash (b : list byte) : Hash := b.

Definition exManagerAddress : Address := replicate 20 x00.

Definition exTarget : Address := replicate 20 xaa.
Definition exEventSig : Hash := replicate 32 x11.
Definition exSubscriber : Address := replicate 20 xbb.
Definition exOrigin : Address := replicate 20 xcc.
Definition exSelector : list byte := [x01; x02; x03; x04].

Definition exID : Hash :=
  ComputeSubscriptionID concatHash exTarget exEventSig exSubscriber.

(** The record of the scenario at a given price, balance and activity. *)
Definition exRecord (gasPrice balance : Z) (active : bool) : Subscription :=
  {| ID := exID;
     TargetContract := exTarget;
     EventSignature := exEventSig;
     SubscriberContract := exSubscriber;
     CallbackAddress := exSubscriber;
     CallbackSelector := exSelector;
     GasLimit := 100000;
     GasPrice := gasPrice;
     DepositBalance := balance;
     Active := active |}.

(** The persisted tuple of [exRecord 1000 500000000 true]. *)
Definition exPersisted : subscriptionRLP :=
  {| rlpTargetContract := exTarget;
     rlpEventSignature := exEventSig;
     rlpSubscriberContract := exSubscriber;
     rlpCallbackAddress := exSubscriber;
     rlpCallbackSelector := exSelector;
     rlpGasLimit := 100000;
     rlpGasPrice := 1000;
     rlpDepositBalance := 500000000;
     rlpActive := true |}.

Definition exSubscribe (db : StateDB) (gasPrice : Z) : StateDB * (Hash * option Error) :=
  SubscriptionManager.Subscribe concatHash rawBytesToHash exManagerAddress db
    exTarget exEventSig exSubscriber exSubscriber exSelector 100000 gasPrice.

(** After [Subscribe] at price 1000. *)
Definition dbSubscribed : StateDB := (exSubscribe emptyStateDB 1000).1.

(** After [Deposit(id, 500000000)]. *)
Definition dbFunded : StateDB :=
  (SubscriptionManager.Deposit dbSubscribed exID 500000000).1.

(** After [Unsubscribe]: the record is kept, inactive, with its deposit. *)
Definition dbCancelled : StateDB :=
  (SubscriptionManager.Unsubscribe concatHash rawBytesToHash exManagerAddress
     dbFunded exTarget exEventSig exSubscriber).1.

(** A second subscriber to the same event, and the registry that holds
    the funded record of the first next to the new record of the second. *)
Definition exSubscriber2 : Address := replicate 20 xdd.

Definition exID2 : Hash :=
  ComputeSubscriptionID concatHash exTarget exEventSig exSubscriber2.

Definition exRecord2 : Subscription :=
  {| ID := exID2;
     TargetContract := exTarget;
     EventSignature := exEventSig;
     SubscriberContract := exSubscriber2;
     CallbackAddress := exSubscriber2;
     CallbackSelector := exSelector;
     GasLimit := 50000;
     GasPrice := 2000;
     DepositBalance := 0;
     Active := true |}.

Definition dbTwo : StateDB :=
  (SubscriptionManager.Subscribe concatHash rawBytesToHash exManagerAddress
     dbFunded exTarget exEventSig exSubscriber2 exSubscriber2 exSelector
     50000 2000).1.

(** * The registry: reads after writes *)

Section Registry.
Implicit Types (db : StateDB) (id : Hash) (sub : Subscription).

Lemma get_set_eq db id sub :
  statedb.GetSubscription (statedb.SetSubscription db id sub) id = Some sub.
Proof. apply lookup_insert_eq. Qed.

Lemma get_set_ne db id id' sub :
  id ≠ id' →
  statedb.GetSubscription (statedb.SetSubscription db id sub) id'
  = statedb.GetSubscription db id'.
Proof. intros Hne. by apply lookup_insert_ne. Qed.

Lemma get_AddLog db l id :
  statedb.GetSubscription (statedb.AddLog db l) id = statedb.GetSubscription db id.
Proof. reflexivity. Qed.

Lemma set_logs db id sub : logs (statedb.SetSubscription db id sub) = logs db.
Proof. reflexivity. Qed.

Lemma wf_empty : wf emptyStateDB.
Proof.
  repeat split; [constructor | constructor | apply map_Forall_empty].
Qed.

Lemma wf_AddLog db l : wf db → wf (statedb.AddLog db l).
Proof. intros H. exact H. Qed.

Lemma wf_SetSubscription db id sub :
  wf db → ID sub = id → wf (statedb.SetSubscription db id sub).
Proof.
  intros (Hnd & Hdom & Hid) Hsub. unfold wf; simpl.
  assert (Hmono : ∀ k, is_Some (subscriptions db !! k) →
                       is_Some (<[id:=sub]> (subscriptions db) !! k)).
  { intros k Hk. destruct (decide (id = k)) as [->|Hne].
    - rewrite lookup_insert_eq. eauto.
    - by rewrite lookup_insert_ne. }
  split_and!.
  - destruct (subscriptions db !! id) eqn:Hget; [done|].
    apply NoDup_app. split_and!; [done | | apply NoDup_singleton].
    intros k Hk Hk'. apply list_elem_of_singleton in Hk' as ->.
    rewrite Forall_forall in Hdom. apply Hdom in Hk.
    rewrite Hget in Hk. by destruct Hk.
  - destruct (subscriptions db !! id) eqn:Hget.
    + eapply Forall_impl; [exact Hdom | done].
    + apply Forall_app. split.
      * eapply Forall_impl; [exact Hdom | done].
      * constructor; [|constructor]. rewrite lookup_insert_eq. eauto.
  - by apply map_Forall_insert_2.
Qed.

Lemma wf_key db id sub :
  wf db → statedb.GetSubscription db id = Some sub → ID sub = id.
Proof. intros (_ & _ & Hid) Hget. exact (Hid id sub Hget). Qed.

End Registry.

(** * Notification fan-out *)

Section Notify.
Variable BytesToHash : list byte -> Hash.
Variable SubscriptionManagerAddress : Address.
Implicit Types (db : StateDB) (id : Hash) (sub : Subscription).
Implicit Types (subscribers : list Subscription).

Local Abbreviation notifyOne :=
  (SubscriptionManager.notifyOne BytesToHash SubscriptionManagerAddress).
Local Abbreviation notifyLoop :=
  (SubscriptionManager.notifyLoop BytesToHash SubscriptionManagerAddress).
Local Abbreviation NotifySubscribers :=
  (SubscriptionManager.NotifySubscribers BytesToHash SubscriptionManagerAddress).

Lemma DeductGas_sufficient sub :
  HasSufficientDeposit sub = true → DeductGas sub = (charged sub, true).
Proof. intros H. unfold DeductGas. by rewrite H. Qed.

Lemma DeductGas_insufficient sub :
  HasSufficientDeposit sub = false → DeductGas sub = (sub, false).
Proof. intros H. unfold DeductGas. by rewrite H. Qed.

Lemma notifyOne_eligible eventData origin db callbacks sub :
  eligible sub = true →
  ∃ cb, SubscriptionID cb = ID sub ∧
    notifyOne eventData origin db callbacks sub
    = (statedb.SetSubscription db (ID sub) (charged sub), callbacks ++ [cb], Notified).
Proof.
  unfold eligible. intros [Ha Hs]%andb_prop.
  unfold SubscriptionManager.notifyOne.
  rewrite Ha, Hs, (DeductGas_sufficient _ Hs). simpl.
  eexists. split; [|reflexivity]. reflexivity.
Qed.

Lemma notifyOne_skip eventData origin db callbacks sub :
  eligible sub = false →
  ∃ db' b, notifyOne eventData origin db callbacks sub = (db', callbacks, b)
    ∧ subscriptions db' = subscriptions db.
Proof.
  unfold eligible, SubscriptionManager.notifyOne. intros H.
  destruct (Active sub); simpl in *; [|eauto].
  rewrite H. simpl. eauto.
Qed.

(** The loop only ever appends to [callbacks]; what it appends is one
    entry per eligible candidate, in order. *)
Lemma notifyLoop_callbacks eventData origin subscribers : ∀ db callbacks,
  ∃ new, (notifyLoop eventData origin subscribers db callbacks).1.2 = callbacks ++ new
    ∧ SubscriptionID <$> new = ID <$> filter (λ s, eligible s = true) subscribers.
Proof.
  induction subscribers as [|sub rest IH]; intros db callbacks; simpl.
  - exists []. by rewrite app_nil_r.
  - destruct (eligible sub) eqn:He.
    + destruct (notifyOne_eligible eventData origin db callbacks sub He)
        as (cb & Hcb & ->).
      destruct (IH (statedb.SetSubscription db (ID sub) (charged sub))
                   (callbacks ++ [cb])) as (new & Hnew & Hids).
      destruct (notifyLoop _ _ rest _ _) as [[db2 cbs2] bs2]. cbn [fst snd] in *.
      exists (cb :: new). split.
      * by rewrite Hnew, <- app_assoc.
      * rewrite filter_cons_True by done. rewrite !fmap_cons. by rewrite Hcb, Hids.
    + destruct (notifyOne_skip eventData origin db callbacks sub He)
        as (db1 & b & -> & _).
      destruct (IH db1 callbacks) as (new & Hnew & Hids).
      destruct (notifyLoop _ _ rest _ _) as [[db2 cbs2] bs2]. cbn [fst snd] in *.
      exists new. split; [done|].
      rewrite filter_cons_False; [done|]. by rewrite He.
Qed.

(** Records of identities that are not charged are left as they were. *)
Lemma notifyLoop_frame eventData origin subscribers : ∀ db callbacks id,
  id ∉ ID <$> filter (λ s, eligible s = true) subscribers →
  statedb.GetSubscription (notifyLoop eventData origin subscribers db callbacks).1.1 id
  = statedb.GetSubscription db id.
Proof.
  induction subscribers as [|sub rest IH]; intros db callbacks id Hid; simpl; [done|].
  destruct (eligible sub) eqn:He.
  - destruct (notifyOne_eligible eventData origin db callbacks sub He)
      as (cb & Hcb & ->).
    rewrite filter_cons_True in Hid by done. rewrite fmap_cons in Hid.
    apply not_elem_of_cons in Hid as [Hne Hid].
    specialize (IH (statedb.SetSubscription db (ID sub) (charged sub))
                   (callbacks ++ [cb]) id Hid).
    destruct (notifyLoop _ _ rest _ _) as [[db2 cbs2] bs2]. cbn [fst snd] in *.
    rewrite IH. by apply get_set_ne.
  - destruct (notifyOne_skip eventData origin db callbacks sub He)
      as (db1 & b & -> & Hsame).
    rewrite filter_cons_False in Hid by (by rewrite He).
    specialize (IH db1 callbacks id Hid).
    destruct (notifyLoop _ _ rest _ _) as [[db2 cbs2] bs2]. cbn [fst snd] in *.
    rewrite IH. unfold statedb.GetSubscription. by rewrite Hsame.
Qed.

(** A charged candidate ends with its snapshot record, debited once. *)
Lemma notifyLoop_charged eventData origin subscribers : ∀ db callbacks sub,
  NoDup (ID <$> subscribers) →
  sub ∈ subscribers → eligible sub = true →
  statedb.GetSubscription (notifyLoop eventData origin subscribers db callbacks).1.1 (ID sub)
  = Some (charged sub).
Proof.
  induction subscribers as [|s rest IH]; intros db callbacks sub Hnd Hin He.
  { by apply elem_of_nil in Hin. }
  rewrite fmap_cons in Hnd. apply NoDup_cons in Hnd as [Hfresh Hnd].
  apply elem_of_cons in Hin as [->|Hin]; simpl.
  - destruct (notifyOne_eligible eventData origin db callbacks s He)
      as (cb & Hcb & ->).
    pose proof (notifyLoop_frame eventData origin rest
      (statedb.SetSubscription db (ID s) (charged s)) (callbacks ++ [cb]) (ID s)) as Hfr.
    destruct (notifyLoop _ _ rest _ _) as [[db2 cbs2] bs2]. cbn [fst snd] in *.
    rewrite Hfr; [apply get_set_eq|].
    intros Hin. apply Hfresh.
    apply list_elem_of_fmap in Hin as (s' & -> & Hs').
    apply list_elem_of_fmap. exists s'. split; [done|].
    by apply list_elem_of_filter in Hs' as [_ ?].
  - destruct (notifyOne eventData origin db callbacks s) as [[db1 cbs1] b1].
    specialize (IH db1 cbs1 sub Hnd Hin He).
    destruct (notifyLoop _ _ rest _ _) as [[db2 cbs2] bs2]. cbn [fst snd] in *. done.
Qed.

(** What the enumeration hands to the loop. *)
Lemma GetSubscribers_stored db target eventSig sub :
  sub ∈ statedb.GetSubscribers db target eventSig →
  ∃ id, id ∈ order db ∧ statedb.GetSubscription db id = Some sub.
Proof.
  unfold statedb.GetSubscribers. intros [_ Hin]%list_elem_of_filter.
  by apply list_elem_of_omap in Hin.
Qed.

Lemma GetSubscribers_own_key db target eventSig sub :
  wf db →
  sub ∈ statedb.GetSubscribers db target eventSig →
  statedb.GetSubscription db (ID sub) = Some sub.
Proof.
  intros Hwf (id & _ & Hget)%GetSubscribers_stored.
  by rewrite (wf_key db id sub Hwf Hget).
Qed.

Lemma GetSubscribers_NoDup db target eventSig :
  wf db → NoDup (ID <$> statedb.GetSubscribers db target eventSig).
Proof.
  intros (Hnd & _ & Hid). unfold statedb.GetSubscribers.
  induction (order db) as [|k ks IH]; [constructor|].
  apply NoDup_cons in Hnd as [Hk Hnd]. specialize (IH Hnd). simpl.
  destruct (subscriptions db !! k) as [sub|] eqn:Hget; simpl; [|done].
  destruct (decide (statedb.matches target eventSig sub)) as [Hm|Hm].
  - rewrite filter_cons_True by done. rewrite fmap_cons.
    apply NoDup_cons. split; [|done].
    rewrite (Hid k sub Hget).
    intros (s' & Hk' & Hs')%list_elem_of_fmap. apply Hk.
    apply list_elem_of_filter in Hs' as [_ Hs'].
    apply list_elem_of_omap in Hs' as (k' & Hin & Hget').
    by rewrite Hk', (Hid k' s' Hget').
  - by rewrite filter_cons_False.
Qed.

(** The arm guarded by [!sub.DeductGas()] is never taken. *)
Lemma notifyOne_branch eventData origin db callbacks sub :
  (notifyOne eventData origin db callbacks sub).2 ≠ SkipDeductFailed.
Proof.
  unfold SubscriptionManager.notifyOne.
  destruct (Active sub); simpl; [|done].
  destruct (HasSufficientDeposit sub) eqn:Hs; simpl; [|done].
  by rewrite (DeductGas_sufficient _ Hs).
Qed.

Lemma NotifySubscribers_loop db target eventSig eventData origin :
  NotifySubscribers db target eventSig eventData origin
  = let r := notifyLoop eventData origin
               (statedb.GetSubscribers db target eventSig) db [] in
    (r.1.1, r.1.2).
Proof.
  unfold SubscriptionManager.NotifySubscribers.
  by destruct (notifyLoop _ _ _ _ _) as [[? ?] ?].
Qed.

(** C1. Under a well-formed registry, [NotifySubscribers] returns a
    callback only for a stored subscription that is active and whose
    deposit covers [gasLimit * gasPrice]; the record of each such
    subscription ends with its deposit lowered by exactly
    [gasLimit * gasPrice]; no callback names an inactive or underfunded
    subscription; and the record of every identity that no callback names
    is unchanged. *)
Theorem NotifySubscribers_selection db target eventSig eventData origin :
  wf db →
  let r := NotifySubscribers db target eventSig eventData origin in
  (∀ cb, cb ∈ r.2 → ∃ sub sub',
      statedb.GetSubscription db (SubscriptionID cb) = Some sub
      ∧ Active sub = true
      ∧ GasLimit sub * GasPrice sub ≤ DepositBalance sub
      ∧ statedb.GetSubscription r.1 (SubscriptionID cb) = Some sub'
      ∧ DepositBalance sub' = DepositBalance sub - GasLimit sub * GasPrice sub)
  ∧ (∀ id sub, statedb.GetSubscription db id = Some sub →
       Active sub = false ∨ DepositBalance sub < GasLimit sub * GasPrice sub →
       ∀ cb, cb ∈ r.2 → SubscriptionID cb ≠ id)
  ∧ (∀ id, (∀ cb, cb ∈ r.2 → SubscriptionID cb ≠ id) →
       statedb.GetSubscription r.1 id = statedb.GetSubscription db id).
Proof.
  intros Hwf r. subst r. rewrite NotifySubscribers_loop. cbn zeta. cbn [fst snd].
  set (subscribers := statedb.GetSubscribers db target eventSig).
  destruct (notifyLoop_callbacks eventData origin subscribers db [])
    as (new & Hnew & Hids).
  rewrite app_nil_l in Hnew. rewrite Hnew.
  assert (Hsel : ∀ cb, cb ∈ new → ∃ sub,
            sub ∈ subscribers ∧ eligible sub = true ∧ ID sub = SubscriptionID cb).
  { intros cb Hcb.
    assert (Hin : SubscriptionID cb ∈ SubscriptionID <$> new)
      by (apply list_elem_of_fmap; eauto).
    rewrite Hids in Hin. apply list_elem_of_fmap in Hin as (sub & Hsub & Hin).
    apply list_elem_of_filter in Hin as [He Hin]. eauto. }
  assert (Hfirst : ∀ cb, cb ∈ new → ∃ sub sub',
      statedb.GetSubscription db (SubscriptionID cb) = Some sub
      ∧ Active sub = true
      ∧ GasLimit sub * GasPrice sub ≤ DepositBalance sub
      ∧ statedb.GetSubscription
          (notifyLoop eventData origin subscribers db []).1.1 (SubscriptionID cb)
        = Some sub'
      ∧ DepositBalance sub' = DepositBalance sub - GasLimit sub * GasPrice sub).
  { intros cb (sub & Hin & He & Hid)%Hsel. rewrite <- Hid.
    exists sub, (charged sub).
    pose proof He as [Ha Hs]%andb_prop.
    split_and!.
    - by apply (GetSubscribers_own_key db target eventSig).
    - done.
    - by apply Z.leb_le.
    - apply notifyLoop_charged; [|done..].
      by apply GetSubscribers_NoDup.
    - reflexivity. }
  split_and!.
  - exact Hfirst.
  - intros id sub Hget Hbad cb Hcb Heq.
    destruct (Hfirst cb Hcb) as (s & _ & Hget' & Ha & Hs & _).
    rewrite Heq, Hget in Hget'. injection Hget' as <-.
    destruct Hbad as [Hbad|Hbad]; [congruence|lia].
  - intros id Hnot. apply notifyLoop_frame.
    intros (sub & -> & Hin)%list_elem_of_fmap.
    assert (Hin' : ID sub ∈ SubscriptionID <$> new).
    { rewrite Hids. apply list_elem_of_fmap. eauto. }
    apply list_elem_of_fmap in Hin' as (cb & Hcb & Hin').
    by apply (Hnot cb Hin').
Qed.

(** C10. [DeductGas] reports success whenever [HasSufficientDeposit]
    holds; the loop body of [NotifySubscribers] reaches the call of
    [DeductGas] only for a candidate with [HasSufficientDeposit]; hence no
    iteration, and no run of the loop, takes the arm that skips a candidate
    because [DeductGas] reported failure. *)
Theorem DeductGas_failure_arm_unreachable :
  (∀ sub, HasSufficientDeposit sub = true → (DeductGas sub).2 = true)
  ∧ (∀ eventData origin db callbacks sub,
       let b := (notifyOne eventData origin db callbacks sub).2 in
       (b = Notified ∨ b = SkipDeductFailed → HasSufficientDeposit sub = true)
       ∧ b ≠ SkipDeductFailed)
  ∧ (∀ eventData origin subscribers db callbacks,
       SkipDeductFailed ∉ (notifyLoop eventData origin subscribers db callbacks).2).
Proof.
  split_and!.
  - intros sub Hs. by rewrite (DeductGas_sufficient _ Hs).
  - intros eventData origin db callbacks sub b. split.
    + subst b. unfold SubscriptionManager.notifyOne.
      destruct (Active sub); simpl; [|by intros [|]].
      destruct (HasSufficientDeposit sub); simpl; [done|by intros [|]].
    + apply notifyOne_branch.
  - intros eventData origin subscribers.
    induction subscribers as [|sub rest IH]; intros db callbacks; simpl.
    { apply not_elem_of_nil. }
    pose proof (notifyOne_branch eventData origin db callbacks sub) as Hb.
    destruct (notifyOne eventData origin db callbacks sub) as [[db1 cbs1] b].
    specialize (IH db1 cbs1).
    destruct (notifyLoop _ _ rest _ _) as [[db2 cbs2] bs2]. cbn [fst snd] in *.
    apply not_elem_of_cons. split; [congruence|done].
Qed.

End Notify.

(** * Deposit accounting *)

Section Accounting.
Implicit Types (db : StateDB) (id : Hash) (sub : Subscription).
Implicit Types (amount gasUsed gasLimit gasPrice : Z).

(** C2. For a stored record, [Withdraw] succeeds exactly when
    [amount <= depositBalance]; on success the record is written back with
    the deposit lowered by [amount]; otherwise the error is
    [ErrInsufficientDeposit] and the registry is untouched. *)
Theorem Withdraw_safety db id amount sub :
  statedb.GetSubscription db id = Some sub →
  let r := SubscriptionManager.Withdraw db id amount in
  (r.2 = None ↔ amount ≤ DepositBalance sub)
  ∧ (r.2 = None →
       statedb.GetSubscription r.1 id
       = Some (setDepositBalance sub (DepositBalance sub - amount))
       ∧ SubscriptionManager.GetBalance r.1 id = DepositBalance sub - amount)
  ∧ (r.2 ≠ None →
       r.2 = Some ErrInsufficientDeposit
       ∧ r.1 = db
       ∧ SubscriptionManager.GetBalance r.1 id = DepositBalance sub).
Proof.
  intros Hget r. subst r. unfold SubscriptionManager.Withdraw. rewrite Hget.
  destruct (DepositBalance sub <? amount) eqn:Hlt; cbn [fst snd].
  - apply Z.ltb_lt in Hlt. split_and!.
    + split; [done|lia].
    + done.
    + intros _. unfold SubscriptionManager.GetBalance. by rewrite Hget.
  - apply Z.ltb_ge in Hlt. split_and!.
    + done.
    + intros _. unfold SubscriptionManager.GetBalance.
      by rewrite get_set_eq.
    + done.
Qed.

Lemma wrap64_small z : is_uint64 z → wrap64 z = z.
Proof. intros Hz. unfold wrap64. apply Z.mod_small. exact Hz. Qed.

Lemma wrap64_underflow z : - 2 ^ 64 <= z < 0 → wrap64 z = z + 2 ^ 64.
Proof.
  intros Hz. unfold wrap64.
  symmetry. apply (Z.mod_unique z (2 ^ 64) (-1)); lia.
Qed.

(** C4. For a stored record and [gasUsed <= gasLimit] (both [uint64]),
    the manager's [RefundGas] writes the record back with the deposit
    raised by exactly [(gasLimit - gasUsed) * gasPrice], every other field
    as it was; other records and the log are untouched. *)
Theorem RefundGas_exact db id gasUsed sub :
  statedb.GetSubscription db id = Some sub →
  is_uint64 (GasLimit sub) → is_uint64 gasUsed →
  gasUsed ≤ GasLimit sub →
  let db' := SubscriptionManager.RefundGas db id gasUsed in
  statedb.GetSubscription db' id
  = Some (setDepositBalance sub
            (DepositBalance sub + (GasLimit sub - gasUsed) * GasPrice sub))
  ∧ SubscriptionManager.GetBalance db' id
    = DepositBalance sub + (GasLimit sub - gasUsed) * GasPrice sub
  ∧ (∀ id', id ≠ id' →
       statedb.GetSubscription db' id' = statedb.GetSubscription db id')
  ∧ logs db' = logs db.
Proof.
  intros Hget Hl Hu Hle db'. subst db'.
  unfold SubscriptionManager.RefundGas, SubscriptionManager.GetBalance.
  rewrite Hget, get_set_eq. unfold types.RefundGas. cbn zeta.
  rewrite wrap64_small by (unfold is_uint64 in *; lia).
  split_and!; [done | done | | done].
  intros id' Hne. by apply get_set_ne.
Qed.

(** C5. [RefundGas] has no check of [gasUsed <= gasLimit]: for
    [gasUsed > gasLimit] (both [uint64]) the subtraction wraps, the amount
    added to the deposit is [((gasLimit - gasUsed) mod 2^64) * gasPrice],
    and the wrapped difference is [2^64 - (gasUsed - gasLimit)], a positive
    number; the refund is neither refused nor clamped to zero, and the
    manager's [RefundGas] writes the record so credited back. *)
Theorem RefundGas_wraps sub gasUsed :
  is_uint64 (GasLimit sub) → is_uint64 gasUsed →
  GasLimit sub < gasUsed →
  let unusedGas := (GasLimit sub - gasUsed) mod 2 ^ 64 in
  types.RefundGas sub gasUsed
  = setDepositBalance sub (DepositBalance sub + unusedGas * GasPrice sub)
  ∧ unusedGas = 2 ^ 64 - (gasUsed - GasLimit sub)
  ∧ 0 < unusedGas
  ∧ (∀ db id, statedb.GetSubscription db id = Some sub →
       statedb.GetSubscription (SubscriptionManager.RefundGas db id gasUsed) id
       = Some (setDepositBalance sub (DepositBalance sub + unusedGas * GasPrice sub))).
Proof.
  intros Hl Hu Hlt unusedGas.
  assert (Hwrap : unusedGas = 2 ^ 64 - (gasUsed - GasLimit sub)).
  { subst unusedGas. fold (wrap64 (GasLimit sub - gasUsed)).
    rewrite wrap64_underflow by (unfold is_uint64 in *; lia). lia. }
  split_and!.
  - reflexivity.
  - exact Hwrap.
  - unfold is_uint64 in *. lia.
  - intros db id Hget. unfold SubscriptionManager.RefundGas.
    rewrite Hget. apply get_set_eq.
Qed.

(** C9. On an identity with no stored record, [Deposit], [Withdraw] and
    [UpdateSubscription] each return [ErrInvalidSubscription] and the
    registry they were given, and [GetBalance] returns 0. *)
Theorem unknown_identity db id amount gasLimit gasPrice :
  statedb.GetSubscription db id = None →
  SubscriptionManager.Deposit db id amount = (db, Some ErrInvalidSubscription)
  ∧ SubscriptionManager.Withdraw db id amount = (db, Some ErrInvalidSubscription)
  ∧ SubscriptionManager.UpdateSubscription db id gasLimit gasPrice
    = (db, Some ErrInvalidSubscription)
  ∧ SubscriptionManager.GetBalance db id = 0.
Proof.
  intros Hget.
  unfold SubscriptionManager.Deposit, SubscriptionManager.Withdraw,
    SubscriptionManager.UpdateSubscription, SubscriptionManager.GetBalance.
  by rewrite Hget.
Qed.

End Accounting.

(** * Subscription lifecycle *)

Section Lifecycle.
Variable Keccak256Hash : list (list byte) -> Hash.
Variable BytesToHash : list byte -> Hash.
Variable SubscriptionManagerAddress : Address.
Implicit Types (db : StateDB) (sub : Subscription).
Implicit Types (target subscriber callback : Address) (eventSig : Hash).
Implicit Types (selector : list byte) (gasLimit gasPrice : Z).

Local Abbreviation Subscribe :=
  (SubscriptionManager.Subscribe Keccak256Hash BytesToHash SubscriptionManagerAddress).
Local Abbreviation Unsubscribe :=
  (SubscriptionManager.Unsubscribe Keccak256Hash BytesToHash SubscriptionManagerAddress).
Local Abbreviation createdLog :=
  (SubscriptionManager.createdLog BytesToHash SubscriptionManagerAddress).
Local Abbreviation subscriptionID := (ComputeSubscriptionID Keccak256Hash).

(** What [Subscribe] does when it finds no active record. *)
Lemma Subscribe_creates db target eventSig subscriber callback selector gasLimit gasPrice :
  let id := subscriptionID target eventSig subscriber in
  match statedb.GetSubscription db id with
  | Some existing => Active existing = false
  | None => True
  end →
  Subscribe db target eventSig subscriber callback selector gasLimit gasPrice
  = (statedb.AddLog
       (statedb.SetSubscription db id
          {| ID := id;
             TargetContract := target;
             EventSignature := eventSig;
             SubscriberContract := subscriber;
             CallbackAddress := callback;
             CallbackSelector := selector;
             GasLimit := gasLimit;
             GasPrice := gasPrice;
             DepositBalance := 0;
             Active := true |})
       (createdLog id target eventSig subscriber),
     (id, None)).
Proof.
  intros id H. subst id. unfold SubscriptionManager.Subscribe.
  destruct (statedb.GetSubscription db _) as [existing|]; [|done].
  by rewrite H.
Qed.

(** What [Subscribe] does when it finds an active record. *)
Lemma Subscribe_active db target eventSig subscriber callback selector gasLimit gasPrice existing :
  let id := subscriptionID target eventSig subscriber in
  statedb.GetSubscription db id = Some existing → Active existing = true →
  Subscribe db target eventSig subscriber callback selector gasLimit gasPrice
  = (db, (id, None)).
Proof.
  intros id Hget Ha. subst id. unfold SubscriptionManager.Subscribe.
  by rewrite Hget, Ha.
Qed.

(** C3. When the record stored for the identity is inactive, [Subscribe]
    stores in its place a record built from the new arguments alone, with
    [DepositBalance] 0 and [Active] true; nothing of the prior record, its
    deposit included, is kept. *)
Theorem Subscribe_replaces_inactive
    db target eventSig subscriber callback selector gasLimit gasPrice old :
  let id := subscriptionID target eventSig subscriber in
  statedb.GetSubscription db id = Some old → Active old = false →
  let r := Subscribe db target eventSig subscriber callback selector gasLimit gasPrice in
  r.2 = (id, None)
  ∧ statedb.GetSubscription r.1 id
    = Some {| ID := id;
              TargetContract := target;
              EventSignature := eventSig;
              SubscriberContract := subscriber;
              CallbackAddress := callback;
              CallbackSelector := selector;
              GasLimit := gasLimit;
              GasPrice := gasPrice;
              DepositBalance := 0;
              Active := true |}
  ∧ SubscriptionManager.GetBalance r.1 id = 0.
Proof.
  intros id Hget Hold r. subst r.
  rewrite Subscribe_creates by (fold id; by rewrite Hget).
  fold id. cbn [fst snd]. unfold SubscriptionManager.GetBalance.
  rewrite get_AddLog, get_set_eq. done.
Qed.

(** C6. Two calls of [Subscribe] in succession with the same arguments
    return the same identity, and the second call returns the registry it
    was given; when the first call is the one that creates the record (no
    active record was stored for the identity before it), the two calls
    together append exactly one log entry, the "SubscriptionCreated" one,
    and the stored record is active with [DepositBalance] 0 after both. *)
Theorem Subscribe_idempotent
    db target eventSig subscriber callback selector gasLimit gasPrice :
  let id := subscriptionID target eventSig subscriber in
  let r1 := Subscribe db target eventSig subscriber callback selector gasLimit gasPrice in
  let r2 := Subscribe r1.1 target eventSig subscriber callback selector gasLimit gasPrice in
  r1.2 = (id, None) ∧ r2.2 = (id, None)
  ∧ r2.1 = r1.1
  ∧ (match statedb.GetSubscription db id with
     | Some existing => Active existing = false
     | None => True
     end →
     logs r2.1 = logs db ++ [createdLog id target eventSig subscriber]
     ∧ SubscriptionManager.GetBalance r2.1 id = 0
     ∧ ∃ sub, statedb.GetSubscription r2.1 id = Some sub
              ∧ Active sub = true ∧ DepositBalance sub = 0).
Proof.
  intros id r1 r2.
  assert (Hr1 : r1.2 = (id, None)).
  { subst r1. unfold SubscriptionManager.Subscribe. fold id.
    by destruct (match statedb.GetSubscription db id with
                 | Some existing => Active existing | None => false end). }
  assert (Hact : ∃ sub, statedb.GetSubscription r1.1 id = Some sub
                        ∧ Active sub = true
                        ∧ (match statedb.GetSubscription db id with
                           | Some existing => Active existing = false
                           | None => True
                           end →
                           DepositBalance sub = 0
                           ∧ logs r1.1 = logs db ++ [createdLog id target eventSig subscriber])).
  { subst r1.
    destruct (statedb.GetSubscription db id) as [existing|] eqn:Hget.
    - destruct (Active existing) eqn:Ha.
      + rewrite (Subscribe_active _ _ _ _ _ _ _ _ existing) by done.
        exists existing. cbn [fst]. split_and!; [done..|]. intros ?; congruence.
      + rewrite Subscribe_creates by (fold id; by rewrite Hget).
        fold id. cbn [fst]. rewrite get_AddLog, get_set_eq.
        eexists. split_and!; [reflexivity | done | done].
    - rewrite Subscribe_creates by (fold id; by rewrite Hget).
      fold id. cbn [fst]. rewrite get_AddLog, get_set_eq.
      eexists. split_and!; [reflexivity | done | done]. }
  destruct Hact as (sub & Hget1 & Ha1 & Hfresh).
  assert (Hr2 : r2 = (r1.1, (id, None))).
  { subst r2. by apply (Subscribe_active _ _ _ _ _ _ _ _ sub). }
  rewrite Hr2. cbn [fst snd]. split_and!; [done..|].
  intros Hnew. destruct (Hfresh Hnew) as [Hzero Hlogs].
  split_and!; [done | |eauto].
  unfold SubscriptionManager.GetBalance. by rewrite Hget1.
Qed.

End Lifecycle.

(** * Persisted form *)

Section RoundTrip.
Variable Keccak256Hash : list (list byte) -> Hash.
Variable wire : Type.
Variable rlp_Encode : subscriptionRLP -> option wire.
Variable rlp_Decode : wire -> option subscriptionRLP.

Local Abbreviation EncodeRLP := (EncodeRLP wire rlp_Encode).
Local Abbreviation DecodeRLP := (DecodeRLP Keccak256Hash wire rlp_Decode).
Local Abbreviation subscriptionID := (ComputeSubscriptionID Keccak256Hash).

(** C7. Given an rlp codec that decodes what it encodes, decoding the
    encoding of a [Subscription] succeeds with a record that has the nine
    persisted fields of the original and whose [ID] is recomputed from
    (target, event signature, subscriber); the decoded record is the
    original whenever the original's [ID] was that hash. *)
Theorem EncodeRLP_DecodeRLP (s : Subscription) (w : wire) :
  (∀ x w, rlp_Encode x = Some w → rlp_Decode w = Some x) →
  EncodeRLP s = Some w →
  ∃ s', DecodeRLP w = Some s'
    ∧ TargetContract s' = TargetContract s
    ∧ EventSignature s' = EventSignature s
    ∧ SubscriberContract s' = SubscriberContract s
    ∧ CallbackAddress s' = CallbackAddress s
    ∧ CallbackSelector s' = CallbackSelector s
    ∧ GasLimit s' = GasLimit s
    ∧ GasPrice s' = GasPrice s
    ∧ DepositBalance s' = DepositBalance s
    ∧ Active s' = Active s
    ∧ ID s' = subscriptionID (TargetContract s) (EventSignature s) (SubscriberContract s)
    ∧ (ID s = subscriptionID (TargetContract s) (EventSignature s) (SubscriberContract s)
       → s' = s).
Proof.
  intros Hcodec Henc. unfold types.EncodeRLP in Henc.
  apply Hcodec in Henc. unfold types.DecodeRLP. rewrite Henc. cbn.
  eexists. split; [reflexivity|]. cbn. split_and!; try reflexivity.
  intros Hid. destruct s; cbn in *. by rewrite Hid.
Qed.

End RoundTrip.

(** * Non-negative deposits *)

Section NonNegative.
Variable Keccak256Hash : list (list byte) -> Hash.
Variable BytesToHash : list byte -> Hash.
Variable SubscriptionManagerAddress : Address.
Implicit Types (db : StateDB) (id : Hash) (sub : Subscription).

Local Abbreviation Subscribe :=
  (SubscriptionManager.Subscribe Keccak256Hash BytesToHash SubscriptionManagerAddress).
Local Abbreviation Unsubscribe :=
  (SubscriptionManager.Unsubscribe Keccak256Hash BytesToHash SubscriptionManagerAddress).
Local Abbreviation notifyOne :=
  (SubscriptionManager.notifyOne BytesToHash SubscriptionManagerAddress).
Local Abbreviation notifyLoop :=
  (SubscriptionManager.notifyLoop BytesToHash SubscriptionManagerAddress).
Local Abbreviation NotifySubscribers :=
  (SubscriptionManager.NotifySubscribers BytesToHash SubscriptionManagerAddress).

Lemma nonneg_SetSubscription db id sub :
  nonneg db → 0 ≤ DepositBalance sub → nonneg (statedb.SetSubscription db id sub).
Proof. intros Hdb Hsub. by apply map_Forall_insert_2. Qed.

Lemma nonneg_get db id sub :
  nonneg db → statedb.GetSubscription db id = Some sub → 0 ≤ DepositBalance sub.
Proof. intros Hdb Hget. exact (Hdb id sub Hget). Qed.

Lemma nonneg_notifyOne eventData origin db callbacks sub :
  nonneg db → nonneg (notifyOne eventData origin db callbacks sub).1.1.
Proof.
  intros Hdb. unfold SubscriptionManager.notifyOne.
  destruct (Active sub); cbn; [|done].
  destruct (HasSufficientDeposit sub) eqn:Hs; cbn; [|done].
  rewrite (DeductGas_sufficient _ Hs). cbn.
  apply nonneg_SetSubscription; [done|]. cbn.
  unfold HasSufficientDeposit in Hs. apply Z.leb_le in Hs. lia.
Qed.

Lemma nonneg_notifyLoop eventData origin subscribers : ∀ db callbacks,
  nonneg db → nonneg (notifyLoop eventData origin subscribers db callbacks).1.1.
Proof.
  induction subscribers as [|sub rest IH]; intros db callbacks Hdb; [done|].
  cbn [SubscriptionManager.notifyLoop].
  pose proof (nonneg_notifyOne eventData origin db callbacks sub Hdb) as H1.
  destruct (notifyOne eventData origin db callbacks sub) as [[db1 cbs1] b].
  specialize (IH db1 cbs1 H1).
  by destruct (notifyLoop _ _ rest _ _) as [[db2 cbs2] bs2].
Qed.

Lemma price_nonneg_SetSubscription db id sub :
  price_nonneg db → 0 ≤ GasPrice sub →
  price_nonneg (statedb.SetSubscription db id sub).
Proof. intros Hdb Hsub. by apply map_Forall_insert_2. Qed.

Lemma price_nonneg_get db id sub :
  price_nonneg db → statedb.GetSubscription db id = Some sub → 0 ≤ GasPrice sub.
Proof. intros Hdb Hget. exact (Hdb id sub Hget). Qed.

Lemma price_nonneg_notifyLoop eventData origin subscribers : ∀ db callbacks,
  price_nonneg db → Forall (λ sub, 0 ≤ GasPrice sub) subscribers →
  price_nonneg (notifyLoop eventData origin subscribers db callbacks).1.1.
Proof.
  induction subscribers as [|sub rest IH]; intros db callbacks Hdb Hall; [done|].
  apply Forall_cons in Hall as [Hsub Hall].
  cbn [SubscriptionManager.notifyLoop].
  assert (H1 : price_nonneg (notifyOne eventData origin db callbacks sub).1.1).
  { unfold SubscriptionManager.notifyOne.
    destruct (Active sub); cbn; [|done].
    destruct (HasSufficientDeposit sub) eqn:Hs; cbn; [|done].
    rewrite (DeductGas_sufficient _ Hs). cbn.
    by apply price_nonneg_SetSubscription. }
  destruct (notifyOne eventData origin db callbacks sub) as [[db1 cbs1] b].
  specialize (IH db1 cbs1 H1 Hall).
  by destruct (notifyLoop _ _ rest _ _) as [[db2 cbs2] bs2].
Qed.

(** C8. With gas prices typed as the data model has them (not negative,
    in the stored records and in the [gasPrice] argument of [Subscribe]
    and [UpdateSubscription]), [DepositBalance >= 0] is an invariant: from
    a registry in which every record has a non-negative deposit, each of
    [Subscribe], [Unsubscribe], [NotifySubscribers], [Deposit] with
    [amount >= 0], [Withdraw], [RefundGas] (for every [gasUsed], so in
    particular for [gasUsed <= gasLimit]) and [UpdateSubscription] returns
    a registry in which every record has a non-negative deposit; and the
    prices stay non-negative, so the same holds after any further
    operation. *)
Theorem deposit_nonneg_preserved db :
  nonneg db → price_nonneg db →
  (∀ target eventSig subscriber callback selector gasLimit gasPrice,
     0 ≤ gasPrice →
     let db' := (Subscribe db target eventSig subscriber callback selector
                   gasLimit gasPrice).1 in
     nonneg db' ∧ price_nonneg db')
  ∧ (∀ target eventSig subscriber,
       let db' := (Unsubscribe db target eventSig subscriber).1 in
       nonneg db' ∧ price_nonneg db')
  ∧ (∀ target eventSig eventData origin,
       let db' := (NotifySubscribers db target eventSig eventData origin).1 in
       nonneg db' ∧ price_nonneg db')
  ∧ (∀ id amount, 0 ≤ amount →
       let db' := (SubscriptionManager.Deposit db id amount).1 in
       nonneg db' ∧ price_nonneg db')
  ∧ (∀ id amount,
       let db' := (SubscriptionManager.Withdraw db id amount).1 in
       nonneg db' ∧ price_nonneg db')
  ∧ (∀ id gasUsed,
       let db' := SubscriptionManager.RefundGas db id gasUsed in
       nonneg db' ∧ price_nonneg db')
  ∧ (∀ id gasLimit gasPrice, 0 ≤ gasPrice →
       let db' := (SubscriptionManager.UpdateSubscription db id gasLimit gasPrice).1 in
       nonneg db' ∧ price_nonneg db').
Proof.
  intros Hdb Hpr. split_and!.
  - intros * Hprice db'. subst db'. unfold SubscriptionManager.Subscribe.
    destruct (match statedb.GetSubscription db _ with
              | Some existing => Active existing | None => false end);
      cbn [fst]; [done|].
    split.
    + by apply nonneg_SetSubscription.
    + by apply price_nonneg_SetSubscription.
  - intros target eventSig subscriber db'. subst db'.
    unfold SubscriptionManager.Unsubscribe.
    destruct (statedb.GetSubscription db
                (ComputeSubscriptionID Keccak256Hash target eventSig subscriber))
      as [sub|] eqn:Hget; [|done].
    destruct (Active sub); cbn [negb fst]; [|done]. split.
    + apply nonneg_SetSubscription; [done|]. cbn. by eapply nonneg_get.
    + apply price_nonneg_SetSubscription; [done|]. cbn. by eapply price_nonneg_get.
  - intros target eventSig eventData origin db'. subst db'.
    rewrite NotifySubscribers_loop. cbn zeta. cbn [fst].
    split.
    + by apply nonneg_notifyLoop.
    + apply price_nonneg_notifyLoop; [done|].
      apply Forall_forall. intros sub (id & _ & Hget)%GetSubscribers_stored.
      by eapply price_nonneg_get.
  - intros id amount Hamount db'. subst db'. unfold SubscriptionManager.Deposit.
    destruct (statedb.GetSubscription db id) as [sub|] eqn:Hget; [|done].
    cbn [fst]. split.
    + apply nonneg_SetSubscription; [done|]. cbn.
      pose proof (nonneg_get _ _ _ Hdb Hget). lia.
    + apply price_nonneg_SetSubscription; [done|]. cbn. by eapply price_nonneg_get.
  - intros id amount db'. subst db'. unfold SubscriptionManager.Withdraw.
    destruct (statedb.GetSubscription db id) as [sub|] eqn:Hget; [|done].
    destruct (DepositBalance sub <? amount) eqn:Hlt; [done|].
    cbn [fst]. split.
    + apply nonneg_SetSubscription; [done|]. cbn. apply Z.ltb_ge in Hlt. lia.
    + apply price_nonneg_SetSubscription; [done|]. cbn. by eapply price_nonneg_get.
  - intros id gasUsed db'. subst db'. unfold SubscriptionManager.RefundGas.
    destruct (statedb.GetSubscription db id) as [sub|] eqn:Hget; [|done].
    pose proof (nonneg_get _ _ _ Hdb Hget).
    pose proof (price_nonneg_get _ _ _ Hpr Hget).
    split.
    + apply nonneg_SetSubscription; [done|]. cbn.
      assert (0 ≤ wrap64 (GasLimit sub - gasUsed))
        by (unfold wrap64; apply Z.mod_pos_bound; lia).
      nia.
    + by apply price_nonneg_SetSubscription.
  - intros id gasLimit gasPrice Hprice db'. subst db'.
    unfold SubscriptionManager.UpdateSubscription.
    destruct (statedb.GetSubscription db id) as [sub|] eqn:Hget; [|done].
    destruct (Active sub); cbn [negb fst]; [|done]. split.
    + apply nonneg_SetSubscription; [done|]. cbn. by eapply nonneg_get.
    + by apply price_nonneg_SetSubscription.
Qed.

End NonNegative.

(** * Well-formedness is kept by every operation *)

Section WellFormed.
Variable Keccak256Hash : list (list byte) -> Hash.
Variable BytesToHash : list byte -> Hash.
Variable SubscriptionManagerAddress : Address.
Implicit Types (db : StateDB) (id : Hash) (sub : Subscription).

Local Abbreviation notifyOne :=
  (SubscriptionManager.notifyOne BytesToHash SubscriptionManagerAddress).
Local Abbreviation notifyLoop :=
  (SubscriptionManager.notifyLoop BytesToHash SubscriptionManagerAddress).

Lemma wf_notifyLoop eventData origin subscribers : ∀ db callbacks,
  wf db → wf (notifyLoop eventData origin subscribers db callbacks).1.1.
Proof.
  induction subscribers as [|sub rest IH]; intros db callbacks Hdb; [done|].
  cbn [SubscriptionManager.notifyLoop].
  assert (H1 : wf (notifyOne eventData origin db callbacks sub).1.1).
  { unfold SubscriptionManager.notifyOne.
    destruct (Active sub); cbn; [|done].
    destruct (HasSufficientDeposit sub) eqn:Hs; cbn; [|done].
    rewrite (DeductGas_sufficient _ Hs). cbn. by apply wf_SetSubscription. }
  destruct (notifyOne eventData origin db callbacks sub) as [[db1 cbs1] b].
  specialize (IH db1 cbs1 H1).
  by destruct (notifyLoop _ _ rest _ _) as [[db2 cbs2] bs2].
Qed.

(** The empty registry is well-formed and every manager operation returns
    a well-formed registry when given one. *)
Lemma wf_preserved db :
  wf db →
  (∀ target eventSig subscriber callback selector gasLimit gasPrice,
     wf (SubscriptionManager.Subscribe Keccak256Hash BytesToHash
           SubscriptionManagerAddress db target eventSig subscriber callback
           selector gasLimit gasPrice).1)
  ∧ (∀ target eventSig subscriber,
       wf (SubscriptionManager.Unsubscribe Keccak256Hash BytesToHash
             SubscriptionManagerAddress db target eventSig subscriber).1)
  ∧ (∀ target eventSig eventData origin,
       wf (SubscriptionManager.NotifySubscribers BytesToHash
             SubscriptionManagerAddress db target eventSig eventData origin).1)
  ∧ (∀ id amount, wf (SubscriptionManager.Deposit db id amount).1)
  ∧ (∀ id amount, wf (SubscriptionManager.Withdraw db id amount).1)
  ∧ (∀ id gasUsed, wf (SubscriptionManager.RefundGas db id gasUsed))
  ∧ (∀ id gasLimit gasPrice,
       wf (SubscriptionManager.UpdateSubscription db id gasLimit gasPrice).1).
Proof.
  intros Hdb. split_and!.
  - intros. unfold SubscriptionManager.Subscribe.
    destruct (match statedb.GetSubscription db _ with
              | Some existing => Active existing | None => false end); cbn; [done|].
    apply wf_AddLog. by apply wf_SetSubscription.
  - intros. unfold SubscriptionManager.Unsubscribe.
    destruct (statedb.GetSubscription db _) as [sub|] eqn:Hget; [|done].
    destruct (Active sub); cbn; [|done].
    apply wf_AddLog, wf_SetSubscription; [done|]. cbn. by eapply wf_key.
  - intros. rewrite NotifySubscribers_loop. cbn zeta. cbn [fst].
    by apply wf_notifyLoop.
  - intros id amount. unfold SubscriptionManager.Deposit.
    destruct (statedb.GetSubscription db id) as [sub|] eqn:Hget; [|done].
    cbn [fst]. apply wf_SetSubscription; [done|]. cbn. by eapply wf_key.
  - intros id amount. unfold SubscriptionManager.Withdraw.
    destruct (statedb.GetSubscription db id) as [sub|] eqn:Hget; [|done].
    destruct (DepositBalance sub <? amount); [done|].
    cbn [fst]. apply wf_SetSubscription; [done|]. cbn. by eapply wf_key.
  - intros id gasUsed. unfold SubscriptionManager.RefundGas.
    destruct (statedb.GetSubscription db id) as [sub|] eqn:Hget; [|done].
    apply wf_SetSubscription; [done|]. cbn. by eapply wf_key.
  - intros id gasLimit gasPrice. unfold SubscriptionManager.UpdateSubscription.
    destruct (statedb.GetSubscription db id) as [sub|] eqn:Hget; [|done].
    destruct (Active sub); cbn; [|done].
    apply wf_SetSubscription; [done|]. cbn. by eapply wf_key.
Qed.

End WellFormed.

(** * Concrete runs *)

Ltac run := vm_compute; reflexivity.

Lemma wf_dbFunded : wf dbFunded.
Proof. apply (bool_decide_unpack (wf dbFunded)). by vm_compute. Qed.

Lemma nonneg_dbFunded : nonneg dbFunded.
Proof.
  unfold nonneg. apply (bool_decide_unpack (map_Forall _ _)). by vm_compute.
Qed.

(** The end-to-end scenario: subscribe, deposit 500000000, notify once. *)
Example end_to_end :
  let r := SubscriptionManager.NotifySubscribers rawBytesToHash exManagerAddress
             dbFunded exTarget exEventSig [xff] exOrigin in
  (exSubscribe emptyStateDB 1000).2 = (exID, None)
  ∧ SubscriptionManager.GetBalance dbSubscribed exID = 0
  ∧ SubscriptionManager.GetBalance dbFunded exID = 500000000
  ∧ CallbackData <$> r.2 = [[x01; x02; x03; x04; xff]]
  ∧ SubscriptionManager.GetBalance r.1 exID = 400000000.
Proof. cbv zeta. split_and!; run. Qed.

(** After [Unsubscribe], notification returns nothing and charges nothing. *)
Example post_unsubscribe_exclusion :
  SubscriptionManager.NotifySubscribers rawBytesToHash exManagerAddress
    dbCancelled exTarget exEventSig [xff] exOrigin
  = (dbCancelled, []).
Proof. run. Qed.

Lemma NotifySubscribers_selection_witness :
  wf dbFunded
  ∧ (∀ cb, cb ∈ (SubscriptionManager.NotifySubscribers rawBytesToHash
                   exManagerAddress dbFunded exTarget exEventSig [xff] exOrigin).2 →
       ∃ sub sub',
         statedb.GetSubscription dbFunded (SubscriptionID cb) = Some sub
         ∧ Active sub = true
         ∧ GasLimit sub * GasPrice sub ≤ DepositBalance sub
         ∧ statedb.GetSubscription
             (SubscriptionManager.NotifySubscribers rawBytesToHash
                exManagerAddress dbFunded exTarget exEventSig [xff] exOrigin).1
             (SubscriptionID cb) = Some sub'
         ∧ DepositBalance sub'
           = DepositBalance sub - GasLimit sub * GasPrice sub).
Proof.
  split; [exact wf_dbFunded|].
  exact (proj1 (NotifySubscribers_selection rawBytesToHash exManagerAddress
                  dbFunded exTarget exEventSig [xff] exOrigin wf_dbFunded)).
Defined.

Lemma Withdraw_safety_witness :
  statedb.GetSubscription dbFunded exID = Some (exRecord 1000 500000000 true)
  ∧ ((SubscriptionManager.Withdraw dbFunded exID 100).2 = None ↔ 100 ≤ 500000000).
Proof.
  assert (Hget : statedb.GetSubscription dbFunded exID
                 = Some (exRecord 1000 500000000 true)) by run.
  split; [exact Hget|].
  exact (proj1 (Withdraw_safety dbFunded exID 100 _ Hget)).
Defined.

Lemma Subscribe_replaces_inactive_witness :
  statedb.GetSubscription dbCancelled exID = Some (exRecord 1000 500000000 false)
  ∧ Active (exRecord 1000 500000000 false) = false
  ∧ SubscriptionManager.GetBalance (exSubscribe dbCancelled 7).1 exID = 0.
Proof.
  assert (Hget : statedb.GetSubscription dbCancelled exID
                 = Some (exRecord 1000 500000000 false)) by run.
  split_and!; [exact Hget | reflexivity |].
  exact (proj2 (proj2 (Subscribe_replaces_inactive concatHash rawBytesToHash
    exManagerAddress dbCancelled exTarget exEventSig exSubscriber exSubscriber
    exSelector 100000 7 _ Hget eq_refl))).
Defined.

Lemma RefundGas_exact_witness :
  statedb.GetSubscription dbFunded exID = Some (exRecord 1000 500000000 true)
  ∧ is_uint64 100000 ∧ is_uint64 40000 ∧ 40000 ≤ 100000
  ∧ SubscriptionManager.GetBalance
      (SubscriptionManager.RefundGas dbFunded exID 40000) exID
    = 500000000 + (100000 - 40000) * 1000.
Proof.
  assert (Hget : statedb.GetSubscription dbFunded exID
                 = Some (exRecord 1000 500000000 true)) by run.
  assert (Hl : is_uint64 100000) by (unfold is_uint64; lia).
  assert (Hu : is_uint64 40000) by (unfold is_uint64; lia).
  assert (Hle : 40000 ≤ 100000) by lia.
  split_and!; [exact Hget | exact Hl | exact Hu | exact Hle |].
  exact (proj1 (proj2 (RefundGas_exact dbFunded exID 40000 _ Hget Hl Hu Hle))).
Defined.

Lemma RefundGas_wraps_witness :
  is_uint64 (GasLimit (exRecord 1000 500000000 true))
  ∧ is_uint64 100001
  ∧ GasLimit (exRecord 1000 500000000 true) < 100001
  ∧ DepositBalance (types.RefundGas (exRecord 1000 500000000 true) 100001)
    = 500000000 + 18446744073709551615 * 1000.
Proof.
  assert (Hl : is_uint64 (GasLimit (exRecord 1000 500000000 true)))
    by (unfold is_uint64; cbn; lia).
  assert (Hu : is_uint64 100001) by (unfold is_uint64; lia).
  assert (Hlt : GasLimit (exRecord 1000 500000000 true) < 100001) by (cbn; lia).
  split_and!; [exact Hl | exact Hu | exact Hlt |].
  pose proof (RefundGas_wraps (exRecord 1000 500000000 true) 100001 Hl Hu Hlt)
    as (Heq & _).
  rewrite Heq. reflexivity.
Defined.

(** The same refund through the manager. *)
Example RefundGas_wraps_value :
  SubscriptionManager.GetBalance
    (SubscriptionManager.RefundGas dbFunded exID 100001) exID
  = 500000000 + 18446744073709551615 * 1000.
Proof. run. Qed.

Lemma Subscribe_idempotent_witness :
  match statedb.GetSubscription emptyStateDB exID with
  | Some existing => Active existing = false
  | None => True
  end
  ∧ (exSubscribe (exSubscribe emptyStateDB 1000).1 1000).1 = (exSubscribe emptyStateDB 1000).1
  ∧ length (logs (exSubscribe (exSubscribe emptyStateDB 1000).1 1000).1) = 1%nat.
Proof.
  assert (Hnew : match statedb.GetSubscription emptyStateDB exID with
                 | Some existing => Active existing = false
                 | None => True
                 end) by exact I.
  pose proof (Subscribe_idempotent concatHash rawBytesToHash exManagerAddress
    emptyStateDB exTarget exEventSig exSubscriber exSubscriber exSelector
    100000 1000) as (_ & _ & Hsame & Hone).
  split_and!; [exact Hnew | exact Hsame |].
  destruct (Hone Hnew) as (Hlogs & _).
  unfold exSubscribe. rewrite Hlogs. reflexivity.
Defined.

Lemma EncodeRLP_DecodeRLP_witness :
  (∀ (x w : subscriptionRLP), Some x = Some w → Some w = Some x)
  ∧ EncodeRLP subscriptionRLP Some (exRecord 1000 500000000 true)
    = Some {| rlpTargetContract := exTarget;
              rlpEventSignature := exEventSig;
              rlpSubscriberContract := exSubscriber;
              rlpCallbackAddress := exSubscriber;
              rlpCallbackSelector := exSelector;
              rlpGasLimit := 100000;
              rlpGasPrice := 1000;
              rlpDepositBalance := 500000000;
              rlpActive := true |}
  ∧ ∃ s', DecodeRLP concatHash subscriptionRLP Some
            {| rlpTargetContract := exTarget;
               rlpEventSignature := exEventSig;
               rlpSubscriberContract := exSubscriber;
               rlpCallbackAddress := exSubscriber;
               rlpCallbackSelector := exSelector;
               rlpGasLimit := 100000;
               rlpGasPrice := 1000;
               rlpDepositBalance := 500000000;
               rlpActive := true |} = Some s'
          ∧ DepositBalance s' = 500000000.
Proof.
  assert (Hcodec : ∀ (x w : subscriptionRLP), Some x = Some w → Some w = Some x)
    by (intros x w H; by rewrite H).
  split_and!; [exact Hcodec | reflexivity |].
  destruct (EncodeRLP_DecodeRLP concatHash subscriptionRLP Some Some
              (exRecord 1000 500000000 true) _ Hcodec eq_refl)
    as (s' & Hdec & _ & _ & _ & _ & _ & _ & _ & Hbal & _).
  exists s'. split; [exact Hdec | exact Hbal].
Defined.

Lemma price_nonneg_dbFunded : price_nonneg dbFunded.
Proof.
  unfold price_nonneg. apply (bool_decide_unpack (map_Forall _ _)). by vm_compute.
Qed.

Lemma deposit_nonneg_preserved_witness :
  nonneg dbFunded
  ∧ price_nonneg dbFunded
  ∧ nonneg (SubscriptionManager.Withdraw dbFunded exID 500000000).1
  ∧ nonneg (SubscriptionManager.RefundGas dbFunded exID 40000)
  ∧ price_nonneg (SubscriptionManager.RefundGas dbFunded exID 40000).
Proof.
  pose proof (deposit_nonneg_preserved concatHash rawBytesToHash exManagerAddress
                dbFunded nonneg_dbFunded price_nonneg_dbFunded)
    as (_ & _ & _ & _ & Hw & Hr & _).
  split_and!; [exact nonneg_dbFunded | exact price_nonneg_dbFunded
              | exact (proj1 (Hw exID 500000000))
              | exact (proj1 (Hr exID 40000)) | exact (proj2 (Hr exID 40000))].
Defined.

Lemma unknown_identity_witness :
  statedb.GetSubscription emptyStateDB exID = None
  ∧ SubscriptionManager.Deposit emptyStateDB exID 5
    = (emptyStateDB, Some ErrInvalidSubscription)
  ∧ SubscriptionManager.GetBalance emptyStateDB exID = 0.
Proof.
  assert (Hget : statedb.GetSubscription emptyStateDB exID = None) by reflexivity.
  pose proof (unknown_identity emptyStateDB exID 5 7 9 Hget) as (Hd & _ & _ & Hb).
  split_and!; [exact Hget | exact Hd | exact Hb].
Defined.

(** * Further properties: cancellation *)

Section Cancellation.
Variable Keccak256Hash : list (list byte) -> Hash.
Variable BytesToHash : list byte -> Hash.
Variable SubscriptionManagerAddress : Address.
Implicit Types (db : StateDB) (id : Hash) (sub : Subscription).

Local Abbreviation Unsubscribe :=
  (SubscriptionManager.Unsubscribe Keccak256Hash BytesToHash SubscriptionManagerAddress).
Local Abbreviation removedLog :=
  (SubscriptionManager.removedLog BytesToHash SubscriptionManagerAddress).
Local Abbreviation NotifySubscribers :=
  (SubscriptionManager.NotifySubscribers BytesToHash SubscriptionManagerAddress).
Local Abbreviation notifyLoop :=
  (SubscriptionManager.notifyLoop BytesToHash SubscriptionManagerAddress).
Local Abbreviation subscriptionID := (ComputeSubscriptionID Keccak256Hash).

(** After [Unsubscribe] the identity has no record or an inactive one. *)
Lemma Unsubscribe_leaves_inactive db target eventSig subscriber :
  match statedb.GetSubscription (Unsubscribe db target eventSig subscriber).1
          (subscriptionID target eventSig subscriber) with
  | Some sub => Active sub = false
  | None => True
  end.
Proof.
  unfold SubscriptionManager.Unsubscribe.
  set (id := subscriptionID target eventSig subscriber).
  destruct (statedb.GetSubscription db id) as [sub|] eqn:Hget.
  - destruct (Active sub) eqn:Ha; cbn [negb fst].
    + by rewrite get_AddLog, get_set_eq.
    + by rewrite Hget.
  - cbn [fst]. by rewrite Hget.
Qed.

(** X1. [Unsubscribe] on an active record returns no error, writes the
    record back with only [Active] changed to false, so the deposit stays
    in the record and is not paid out, and appends exactly the
    "SubscriptionRemoved" entry to the log. *)
Theorem Unsubscribe_active db target eventSig subscriber sub :
  let id := subscriptionID target eventSig subscriber in
  statedb.GetSubscription db id = Some sub → Active sub = true →
  let r := Unsubscribe db target eventSig subscriber in
  r.2 = None
  ∧ statedb.GetSubscription r.1 id = Some (setActive sub false)
  ∧ SubscriptionManager.GetBalance r.1 id = DepositBalance sub
  ∧ logs r.1 = logs db ++ [removedLog id].
Proof.
  intros id Hget Ha r. subst r. unfold SubscriptionManager.Unsubscribe.
  fold id. rewrite Hget, Ha. cbn [negb fst snd].
  unfold SubscriptionManager.GetBalance.
  by rewrite get_AddLog, get_set_eq.
Qed.

(** X2. [Unsubscribe] never fails; when the identity has no record or an
    inactive one it returns the registry it was given, with no log entry;
    and a second [Unsubscribe] with the same arguments always returns the
    registry left by the first. *)
Theorem Unsubscribe_idempotent db target eventSig subscriber :
  let id := subscriptionID target eventSig subscriber in
  let r1 := Unsubscribe db target eventSig subscriber in
  let r2 := Unsubscribe r1.1 target eventSig subscriber in
  r1.2 = None
  ∧ r2 = (r1.1, None)
  ∧ (match statedb.GetSubscription db id with
     | Some sub => Active sub = false
     | None => True
     end → r1 = (db, None)).
Proof.
  intros id r1 r2.
  assert (Hnoop : ∀ db', match statedb.GetSubscription db' id with
                         | Some sub => Active sub = false
                         | None => True
                         end →
                         Unsubscribe db' target eventSig subscriber = (db', None)).
  { intros db' H. unfold SubscriptionManager.Unsubscribe. fold id.
    destruct (statedb.GetSubscription db' id) as [sub|]; [|done].
    by rewrite H. }
  split_and!.
  - subst r1. unfold SubscriptionManager.Unsubscribe. fold id.
    destruct (statedb.GetSubscription db id) as [sub|]; [|done].
    by destruct (Active sub).
  - subst r2. apply Hnoop. apply Unsubscribe_leaves_inactive.
  - apply Hnoop.
Qed.

(** X3. Over a well-formed registry, after [Unsubscribe] of an identity no
    [NotifySubscribers] call, for any event, returns a callback for it. *)
Theorem Unsubscribe_excludes db target eventSig subscriber :
  wf db →
  let db' := (Unsubscribe db target eventSig subscriber).1 in
  ∀ target' eventSig' eventData origin cb,
    cb ∈ (NotifySubscribers db' target' eventSig' eventData origin).2 →
    SubscriptionID cb ≠ subscriptionID target eventSig subscriber.
Proof.
  intros Hwf db' target' eventSig' eventData origin cb Hcb Heq.
  assert (Hwf' : wf db').
  { subst db'. unfold SubscriptionManager.Unsubscribe.
    destruct (statedb.GetSubscription db _) as [sub|] eqn:Hget; [|done].
    destruct (Active sub); cbn; [|done].
    apply wf_AddLog, wf_SetSubscription; [done|]. cbn. by eapply wf_key. }
  pose proof (Unsubscribe_leaves_inactive db target eventSig subscriber) as Hoff.
  fold db' in Hoff.
  rewrite NotifySubscribers_loop in Hcb. cbn zeta in Hcb. cbn [snd fst] in Hcb.
  destruct (notifyLoop_callbacks BytesToHash SubscriptionManagerAddress eventData
              origin (statedb.GetSubscribers db' target' eventSig') db' [])
    as (new & Hnew & Hids).
  rewrite Hnew, app_nil_l in Hcb.
  assert (Hin : SubscriptionID cb ∈ SubscriptionID <$> new)
    by (apply list_elem_of_fmap; eauto).
  rewrite Hids in Hin. apply list_elem_of_fmap in Hin as (sub & Hsub & Hin).
  apply list_elem_of_filter in Hin as [He Hin].
  apply (GetSubscribers_own_key db' target' eventSig' sub Hwf') in Hin.
  rewrite <- Hsub, Heq in Hin. rewrite Hin in Hoff.
  unfold eligible in He. apply andb_prop in He as [Ha _]. congruence.
Qed.

End Cancellation.

(** * Further properties: funding *)

Section Funds.
Implicit Types (db : StateDB) (id : Hash) (sub : Subscription).
Implicit Types (amount gasUsed gasLimit gasPrice : Z).

Lemma setDepositBalance_same sub : setDepositBalance sub (DepositBalance sub) = sub.
Proof. by destruct sub. Qed.

Lemma setDepositBalance_twice sub a b :
  setDepositBalance (setDepositBalance sub a) b = setDepositBalance sub b.
Proof. reflexivity. Qed.

(** Writing back the record that is already stored changes nothing. *)
Lemma SetSubscription_same db id sub :
  statedb.GetSubscription db id = Some sub → statedb.SetSubscription db id sub = db.
Proof.
  intros Hget. unfold statedb.SetSubscription, statedb.GetSubscription in *.
  rewrite Hget, (insert_id _ _ _ Hget). by destruct db.
Qed.

Lemma SetSubscription_twice db id sub1 sub2 :
  is_Some (statedb.GetSubscription db id) →
  statedb.SetSubscription (statedb.SetSubscription db id sub1) id sub2
  = statedb.SetSubscription db id sub2.
Proof.
  intros [old Hget]. unfold statedb.SetSubscription, statedb.GetSubscription in *.
  cbn. by rewrite lookup_insert_eq, insert_insert_eq, Hget.
Qed.

(** X4. [Deposit] on a stored record, active or not and for an amount of
    either sign, returns no error and writes the record back with the
    deposit raised by exactly [amount], every other field as it was; it
    appends nothing to the log. *)
Theorem Deposit_exact db id amount sub :
  statedb.GetSubscription db id = Some sub →
  let r := SubscriptionManager.Deposit db id amount in
  r.2 = None
  ∧ statedb.GetSubscription r.1 id
    = Some (setDepositBalance sub (DepositBalance sub + amount))
  ∧ SubscriptionManager.GetBalance r.1 id = DepositBalance sub + amount
  ∧ logs r.1 = logs db.
Proof.
  intros Hget r. subst r.
  unfold SubscriptionManager.Deposit, SubscriptionManager.GetBalance.
  rewrite Hget. cbn [fst snd]. by rewrite get_set_eq.
Qed.

(** X5. On a stored record with a non-negative deposit, [Deposit] of an
    amount followed by [Withdraw] of the same amount succeeds and returns
    the very registry the pair started from; so does [Withdraw] followed
    by [Deposit] whenever that withdrawal is covered by the deposit. *)
Theorem Deposit_Withdraw_cancel db id amount sub :
  statedb.GetSubscription db id = Some sub →
  (0 ≤ DepositBalance sub →
     SubscriptionManager.Withdraw (SubscriptionManager.Deposit db id amount).1 id amount
     = (db, None))
  ∧ (amount ≤ DepositBalance sub →
     SubscriptionManager.Deposit (SubscriptionManager.Withdraw db id amount).1 id amount
     = (db, None)).
Proof.
  intros Hget. split; intros Hle.
  - unfold SubscriptionManager.Deposit. rewrite Hget. cbn [fst].
    unfold SubscriptionManager.Withdraw. rewrite get_set_eq. cbn [DepositBalance setDepositBalance].
    destruct (DepositBalance sub + amount <? amount) eqn:Hlt.
    { apply Z.ltb_lt in Hlt. lia. }
    rewrite setDepositBalance_twice, SetSubscription_twice by eauto.
    replace (DepositBalance sub + amount - amount) with (DepositBalance sub) by lia.
    by rewrite setDepositBalance_same, SetSubscription_same.
  - unfold SubscriptionManager.Withdraw. rewrite Hget.
    destruct (DepositBalance sub <? amount) eqn:Hlt.
    { apply Z.ltb_lt in Hlt. lia. }
    cbn [fst]. unfold SubscriptionManager.Deposit. rewrite get_set_eq.
    cbn [DepositBalance setDepositBalance].
    rewrite setDepositBalance_twice, SetSubscription_twice by eauto.
    replace (DepositBalance sub - amount + amount) with (DepositBalance sub) by lia.
    by rewrite setDepositBalance_same, SetSubscription_same.
Qed.

(** X6. [UpdateSubscription] on an active record returns no error and
    writes the record back with [GasLimit] and [GasPrice] replaced and the
    deposit and every other field as they were; on an inactive record,
    which [Deposit] accepts, it returns [ErrInvalidSubscription] and the
    registry it was given. *)
Theorem UpdateSubscription_active_only db id gasLimit gasPrice sub :
  statedb.GetSubscription db id = Some sub →
  let r := SubscriptionManager.UpdateSubscription db id gasLimit gasPrice in
  (Active sub = true →
     r.2 = None
     ∧ statedb.GetSubscription r.1 id = Some (setGas sub gasLimit gasPrice)
     ∧ SubscriptionManager.GetBalance r.1 id = DepositBalance sub
     ∧ logs r.1 = logs db)
  ∧ (Active sub = false → r = (db, Some ErrInvalidSubscription)).
Proof.
  intros Hget r. subst r.
  unfold SubscriptionManager.UpdateSubscription, SubscriptionManager.GetBalance.
  rewrite Hget. split; intros Ha; rewrite Ha; cbn [negb fst snd]; [|done].
  by rewrite get_set_eq.
Qed.

(** X7. Charging a funded record with [DeductGas] and then refunding with
    [RefundGas(gasUsed)], [gasUsed <= gasLimit] (both [uint64]), leaves the
    record debited by exactly [gasUsed * gasPrice], the gas actually used;
    with [gasUsed = 0] the record is back as it was. *)
Theorem DeductGas_RefundGas_net sub gasUsed :
  HasSufficientDeposit sub = true →
  is_uint64 (GasLimit sub) → is_uint64 gasUsed → gasUsed ≤ GasLimit sub →
  (DeductGas sub).2 = true
  ∧ types.RefundGas (DeductGas sub).1 gasUsed
    = setDepositBalance sub (DepositBalance sub - gasUsed * GasPrice sub)
  ∧ (gasUsed = 0 → types.RefundGas (DeductGas sub).1 gasUsed = sub).
Proof.
  intros Hs Hl Hu Hle. rewrite (DeductGas_sufficient _ Hs). cbn [fst snd].
  assert (Hnet : types.RefundGas (charged sub) gasUsed
                 = setDepositBalance sub (DepositBalance sub - gasUsed * GasPrice sub)).
  { unfold types.RefundGas, charged, GasCost. cbn.
    rewrite wrap64_small by (unfold is_uint64 in *; lia).
    unfold setDepositBalance. cbn. f_equal. lia. }
  split_and!; [done | exact Hnet |].
  intros ->. rewrite Hnet.
  replace (DepositBalance sub - 0 * GasPrice sub) with (DepositBalance sub) by lia.
  apply setDepositBalance_same.
Qed.

End Funds.

(** * Further properties: what a notification returns and records *)

Section NotifyOutput.
Variable BytesToHash : list byte -> Hash.
Variable SubscriptionManagerAddress : Address.
Implicit Types (db : StateDB) (id : Hash) (sub : Subscription).
Implicit Types (subscribers : list Subscription).

Local Abbreviation notifyOne :=
  (SubscriptionManager.notifyOne BytesToHash SubscriptionManagerAddress).
Local Abbreviation notifyLoop :=
  (SubscriptionManager.notifyLoop BytesToHash SubscriptionManagerAddress).
Local Abbreviation NotifySubscribers :=
  (SubscriptionManager.NotifySubscribers BytesToHash SubscriptionManagerAddress).
Local Abbreviation insufficientDepositLog :=
  (SubscriptionManager.insufficientDepositLog BytesToHash SubscriptionManagerAddress).

(** The three arms of the loop body that can be taken. *)
Lemma notifyOne_cases eventData origin db callbacks sub :
  (eligible sub = true ∧ underfunded sub = false
   ∧ notifyOne eventData origin db callbacks sub
     = (statedb.SetSubscription db (ID sub) (charged sub),
        callbacks ++ [mkCallback eventData origin sub], Notified))
  ∨ (eligible sub = false ∧ underfunded sub = true
     ∧ notifyOne eventData origin db callbacks sub
       = (statedb.AddLog db (insufficientDepositLog (ID sub)), callbacks,
          SkipInsufficient))
  ∨ (eligible sub = false ∧ underfunded sub = false
     ∧ notifyOne eventData origin db callbacks sub = (db, callbacks, SkipInactive)).
Proof.
  unfold eligible, underfunded, SubscriptionManager.notifyOne.
  destruct (Active sub); cbn [negb andb]; [|by right; right].
  destruct (HasSufficientDeposit sub) eqn:Hs; cbn [negb]; [|by right; left].
  left. by rewrite (DeductGas_sufficient _ Hs).
Qed.

Lemma notifyLoop_output eventData origin subscribers : ∀ db callbacks,
  let r := notifyLoop eventData origin subscribers db callbacks in
  r.1.2 = callbacks
          ++ (mkCallback eventData origin
                <$> filter (λ s, eligible s = true) subscribers)
  ∧ logs r.1.1 = logs db
                 ++ ((λ s, insufficientDepositLog (ID s))
                       <$> filter (λ s, underfunded s = true) subscribers).
Proof.
  induction subscribers as [|sub rest IH]; intros db callbacks; cbn zeta.
  { cbn. by rewrite !app_nil_r. }
  cbn [SubscriptionManager.notifyLoop].
  destruct (notifyOne_cases eventData origin db callbacks sub)
    as [(He & Hu & ->)|[(He & Hu & ->)|(He & Hu & ->)]].
  - destruct (IH (statedb.SetSubscription db (ID sub) (charged sub))
                 (callbacks ++ [mkCallback eventData origin sub])) as [Hc Hl].
    destruct (notifyLoop _ _ rest _ _) as [[db2 cbs2] bs2]. cbn [fst snd] in *.
    rewrite filter_cons_True by done.
    rewrite filter_cons_False by (by rewrite Hu).
    rewrite fmap_cons, Hc, Hl, <- app_assoc. done.
  - destruct (IH (statedb.AddLog db (insufficientDepositLog (ID sub))) callbacks)
      as [Hc Hl].
    destruct (notifyLoop _ _ rest _ _) as [[db2 cbs2] bs2]. cbn [fst snd] in *.
    rewrite filter_cons_False by (by rewrite He).
    rewrite filter_cons_True by done.
    rewrite fmap_cons, Hc, Hl. cbn [logs statedb.AddLog].
    by rewrite <- app_assoc.
  - destruct (IH db callbacks) as [Hc Hl].
    destruct (notifyLoop _ _ rest _ _) as [[db2 cbs2] bs2]. cbn [fst snd] in *.
    rewrite filter_cons_False by (by rewrite He).
    rewrite filter_cons_False by (by rewrite Hu).
    by rewrite Hc, Hl.
Qed.

(** X8. [NotifySubscribers] returns, in the order of the enumeration, one
    callback for each candidate that is active and funded, and nothing
    else; each carries the candidate's identity, subscriber and callback
    addresses, the payload [selector ++ eventData], the candidate's gas
    limit and gas price, and the given origin. *)
Theorem NotifySubscribers_callbacks db target eventSig eventData origin :
  (NotifySubscribers db target eventSig eventData origin).2
  = mkCallback eventData origin
      <$> filter (λ s, eligible s = true)
            (statedb.GetSubscribers db target eventSig).
Proof.
  rewrite NotifySubscribers_loop. cbn zeta. cbn [snd].
  destruct (notifyLoop_output eventData origin
              (statedb.GetSubscribers db target eventSig) db []) as [Hc _].
  by rewrite Hc.
Qed.

(** X9. The only log entries [NotifySubscribers] appends are
    "InsufficientDeposit" entries, one for each candidate that is active
    but cannot pay [gasLimit * gasPrice], in the order of the enumeration;
    inactive candidates and charged candidates leave no entry. *)
Theorem NotifySubscribers_logs db target eventSig eventData origin :
  logs (NotifySubscribers db target eventSig eventData origin).1
  = logs db
    ++ ((λ s, insufficientDepositLog (ID s))
          <$> filter (λ s, underfunded s = true)
                (statedb.GetSubscribers db target eventSig)).
Proof.
  rewrite NotifySubscribers_loop. cbn zeta. cbn [fst].
  destruct (notifyLoop_output eventData origin
              (statedb.GetSubscribers db target eventSig) db []) as [_ Hl].
  by rewrite Hl.
Qed.

(** X10. Over a well-formed registry, [NotifySubscribers] creates no
    record and removes none, and the record of every identity is either
    the one stored before or that record with only its deposit lowered by
    one [gasLimit * gasPrice], the latter only for an active, funded
    record. *)
Theorem NotifySubscribers_records db target eventSig eventData origin id :
  wf db →
  let db' := (NotifySubscribers db target eventSig eventData origin).1 in
  statedb.GetSubscription db' id = statedb.GetSubscription db id
  ∨ ∃ sub, statedb.GetSubscription db id = Some sub
           ∧ eligible sub = true
           ∧ statedb.GetSubscription db' id
             = Some (setDepositBalance sub (DepositBalance sub - GasCost sub)).
Proof.
  intros Hwf db'. subst db'. rewrite NotifySubscribers_loop. cbn zeta. cbn [fst].
  set (subscribers := statedb.GetSubscribers db target eventSig).
  destruct (decide (id ∈ ID <$> filter (λ s, eligible s = true) subscribers))
    as [Hin|Hout].
  - right. apply list_elem_of_fmap in Hin as (sub & -> & Hin).
    apply list_elem_of_filter in Hin as [He Hin]. exists sub. split_and!.
    + by apply (GetSubscribers_own_key db target eventSig).
    + done.
    + apply notifyLoop_charged; [|done..]. by apply GetSubscribers_NoDup.
  - left. by apply notifyLoop_frame.
Qed.

End NotifyOutput.

(** * Further properties: the sum of all deposits *)

Section Totals.
Variable Keccak256Hash : list (list byte) -> Hash.
Variable BytesToHash : list byte -> Hash.
Variable SubscriptionManagerAddress : Address.
Implicit Types (db : StateDB) (id : Hash) (sub : Subscription).
Implicit Types (subscribers : list Subscription).

Local Abbreviation Subscribe :=
  (SubscriptionManager.Subscribe Keccak256Hash BytesToHash SubscriptionManagerAddress).
Local Abbreviation Unsubscribe :=
  (SubscriptionManager.Unsubscribe Keccak256Hash BytesToHash SubscriptionManagerAddress).
Local Abbreviation notifyOne :=
  (SubscriptionManager.notifyOne BytesToHash SubscriptionManagerAddress).
Local Abbreviation notifyLoop :=
  (SubscriptionManager.notifyLoop BytesToHash SubscriptionManagerAddress).
Local Abbreviation NotifySubscribers :=
  (SubscriptionManager.NotifySubscribers BytesToHash SubscriptionManagerAddress).
Local Abbreviation subscriptionID := (ComputeSubscriptionID Keccak256Hash).

(** The deposit held for an identity, 0 when it has no record. *)
Local Abbreviation held db id := (SubscriptionManager.GetBalance db id).

Lemma totalDeposits_SetSubscription db id sub :
  totalDeposits (statedb.SetSubscription db id sub)
  = totalDeposits db - held db id + DepositBalance sub.
Proof.
  unfold totalDeposits, SubscriptionManager.GetBalance, statedb.GetSubscription.
  cbn [subscriptions statedb.SetSubscription].
  assert (Hcomm : ∀ (m : gmap Hash Subscription) (j1 j2 : Hash)
            (z1 z2 : Subscription) (y : Z),
            j1 ≠ j2 → m !! j1 = Some z1 → m !! j2 = Some z2 →
            DepositBalance z1 + (DepositBalance z2 + y)
            = DepositBalance z2 + (DepositBalance z1 + y)) by (intros; lia).
  destruct (subscriptions db !! id) as [old|] eqn:Hget.
  - rewrite <- insert_delete_eq.
    rewrite map_fold_insert_L; [|apply Hcomm|apply lookup_delete_eq].
    rewrite (map_fold_delete_L _ _ id old (subscriptions db)); [|apply Hcomm|done].
    lia.
  - rewrite map_fold_insert_L; [|apply Hcomm|done]. lia.
Qed.

Lemma totalDeposits_AddLog db l :
  totalDeposits (statedb.AddLog db l) = totalDeposits db.
Proof. reflexivity. Qed.

(** X11. How each single-record operation moves the sum of all deposits:
    [Deposit] on a stored record raises it by [amount]; a successful
    [Withdraw] lowers it by [amount]; [RefundGas] on a stored record
    raises it by the refund; [Unsubscribe] and [UpdateSubscription] leave
    it as it is; [Subscribe] leaves it as it is when it creates the first
    record of an identity or finds an active one, and lowers it by the
    whole deposit of the inactive record it overwrites. *)
Theorem totalDeposits_accounting db :
  (∀ id amount sub, statedb.GetSubscription db id = Some sub →
     totalDeposits (SubscriptionManager.Deposit db id amount).1
     = totalDeposits db + amount)
  ∧ (∀ id amount, (SubscriptionManager.Withdraw db id amount).2 = None →
       totalDeposits (SubscriptionManager.Withdraw db id amount).1
       = totalDeposits db - amount)
  ∧ (∀ id gasUsed sub, statedb.GetSubscription db id = Some sub →
       totalDeposits (SubscriptionManager.RefundGas db id gasUsed)
       = totalDeposits db + wrap64 (GasLimit sub - gasUsed) * GasPrice sub)
  ∧ (∀ target eventSig subscriber,
       totalDeposits (Unsubscribe db target eventSig subscriber).1
       = totalDeposits db)
  ∧ (∀ id gasLimit gasPrice,
       totalDeposits (SubscriptionManager.UpdateSubscription db id gasLimit gasPrice).1
       = totalDeposits db)
  ∧ (∀ target eventSig subscriber callback selector gasLimit gasPrice,
       totalDeposits (Subscribe db target eventSig subscriber callback selector
                        gasLimit gasPrice).1
       = match statedb.GetSubscription db (subscriptionID target eventSig subscriber) with
         | Some existing =>
             if Active existing then totalDeposits db
             else totalDeposits db - DepositBalance existing
         | None => totalDeposits db
         end).
Proof.
  split_and!.
  - intros id amount sub Hget. unfold SubscriptionManager.Deposit. rewrite Hget.
    cbn [fst]. rewrite totalDeposits_SetSubscription.
    unfold SubscriptionManager.GetBalance. rewrite Hget. cbn. lia.
  - intros id amount. unfold SubscriptionManager.Withdraw.
    destruct (statedb.GetSubscription db id) as [sub|] eqn:Hget; [|done].
    destruct (DepositBalance sub <? amount); [done|]. intros _.
    cbn [fst]. rewrite totalDeposits_SetSubscription.
    unfold SubscriptionManager.GetBalance. rewrite Hget. cbn. lia.
  - intros id gasUsed sub Hget. unfold SubscriptionManager.RefundGas. rewrite Hget.
    rewrite totalDeposits_SetSubscription.
    unfold SubscriptionManager.GetBalance. rewrite Hget. cbn. lia.
  - intros. unfold SubscriptionManager.Unsubscribe.
    destruct (statedb.GetSubscription db _) as [sub|] eqn:Hget; [|done].
    destruct (Active sub); cbn [negb fst]; [|done].
    rewrite totalDeposits_AddLog, totalDeposits_SetSubscription.
    unfold SubscriptionManager.GetBalance. rewrite Hget. cbn. lia.
  - intros id gasLimit gasPrice. unfold SubscriptionManager.UpdateSubscription.
    destruct (statedb.GetSubscription db id) as [sub|] eqn:Hget; [|done].
    destruct (Active sub); cbn [negb fst]; [|done].
    rewrite totalDeposits_SetSubscription.
    unfold SubscriptionManager.GetBalance. rewrite Hget. cbn. lia.
  - intros. unfold SubscriptionManager.Subscribe.
    set (id := subscriptionID target eventSig subscriber).
    destruct (statedb.GetSubscription db id) as [existing|] eqn:Hget.
    + destruct (Active existing); cbn [fst]; [done|].
      rewrite totalDeposits_AddLog, totalDeposits_SetSubscription.
      unfold SubscriptionManager.GetBalance. rewrite Hget. cbn. lia.
    + cbn [fst]. rewrite totalDeposits_AddLog, totalDeposits_SetSubscription.
      unfold SubscriptionManager.GetBalance. rewrite Hget. cbn. lia.
Qed.

Lemma totalCharge_mkCallback eventData origin sub callbacks :
  totalCharge (mkCallback eventData origin sub :: callbacks)
  = GasCost sub + totalCharge callbacks.
Proof. reflexivity. Qed.

Lemma notifyLoop_total eventData origin subscribers : ∀ db callbacks,
  NoDup (ID <$> subscribers) →
  (∀ sub, sub ∈ subscribers → statedb.GetSubscription db (ID sub) = Some sub) →
  totalDeposits (notifyLoop eventData origin subscribers db callbacks).1.1
  + totalCharge (mkCallback eventData origin
                   <$> filter (λ s, eligible s = true) subscribers)
  = totalDeposits db.
Proof.
  induction subscribers as [|sub rest IH]; intros db callbacks Hnd Hown.
  { cbn. lia. }
  rewrite fmap_cons in Hnd. apply NoDup_cons in Hnd as [Hfresh Hnd].
  cbn [SubscriptionManager.notifyLoop].
  destruct (notifyOne_cases BytesToHash SubscriptionManagerAddress
              eventData origin db callbacks sub)
    as [(He & Hu & ->)|[(He & Hu & ->)|(He & Hu & ->)]].
  - specialize (IH (statedb.SetSubscription db (ID sub) (charged sub))
                   (callbacks ++ [mkCallback eventData origin sub]) Hnd).
    destruct (notifyLoop _ _ rest _ _) as [[db2 cbs2] bs2]. cbn [fst snd] in *.
    rewrite filter_cons_True by done.
    rewrite fmap_cons, totalCharge_mkCallback.
    rewrite totalDeposits_SetSubscription in IH.
    unfold SubscriptionManager.GetBalance in IH.
    rewrite (Hown sub) in IH by apply list_elem_of_here.
    cbn [DepositBalance charged setDepositBalance] in IH.
    assert (Hown' : ∀ s, s ∈ rest →
              statedb.GetSubscription
                (statedb.SetSubscription db (ID sub) (charged sub)) (ID s) = Some s).
    { intros s Hs. rewrite get_set_ne; [apply Hown; by apply list_elem_of_further|].
      intros Heq. apply Hfresh. rewrite Heq. apply list_elem_of_fmap. eauto. }
    specialize (IH Hown'). lia.
  - specialize (IH (statedb.AddLog db
                      (SubscriptionManager.insufficientDepositLog BytesToHash
                         SubscriptionManagerAddress (ID sub))) callbacks Hnd).
    destruct (notifyLoop _ _ rest _ _) as [[db2 cbs2] bs2]. cbn [fst snd] in *.
    rewrite filter_cons_False by (by rewrite He).
    rewrite IH; [done|].
    intros s Hs. rewrite get_AddLog. apply Hown. by apply list_elem_of_further.
  - specialize (IH db callbacks Hnd).
    destruct (notifyLoop _ _ rest _ _) as [[db2 cbs2] bs2]. cbn [fst snd] in *.
    rewrite filter_cons_False by (by rewrite He).
    apply IH. intros s Hs. apply Hown. by apply list_elem_of_further.
Qed.

(** X12. Over a well-formed registry, [NotifySubscribers] lowers the sum
    of all deposits by exactly the sum of [GasLimit * GasPrice] over the
    callbacks it returns: what leaves the deposits is what the callbacks
    were authorised to spend. *)
Theorem NotifySubscribers_conserves db target eventSig eventData origin :
  wf db →
  let r := NotifySubscribers db target eventSig eventData origin in
  totalDeposits r.1 + totalCharge r.2 = totalDeposits db.
Proof.
  intros Hwf r. subst r. rewrite NotifySubscribers_loop. cbn zeta. cbn [fst snd].
  set (subscribers := statedb.GetSubscribers db target eventSig).
  destruct (notifyLoop_output BytesToHash SubscriptionManagerAddress
              eventData origin subscribers db []) as [Hc _].
  rewrite Hc, app_nil_l.
  apply notifyLoop_total.
  - by apply GetSubscribers_NoDup.
  - intros sub Hsub. by apply (GetSubscribers_own_key db target eventSig).
Qed.

End Totals.

(** * Further properties: what the operations keep *)

Section Kept.
Variable Keccak256Hash : list (list byte) -> Hash.
Variable BytesToHash : list byte -> Hash.
Variable SubscriptionManagerAddress : Address.
Implicit Types (db : StateDB) (id : Hash) (sub : Subscription).
Implicit Types (subscribers : list Subscription).

Local Abbreviation Subscribe :=
  (SubscriptionManager.Subscribe Keccak256Hash BytesToHash SubscriptionManagerAddress).
Local Abbreviation Unsubscribe :=
  (SubscriptionManager.Unsubscribe Keccak256Hash BytesToHash SubscriptionManagerAddress).
Local Abbreviation notifyOne :=
  (SubscriptionManager.notifyOne BytesToHash SubscriptionManagerAddress).
Local Abbreviation notifyLoop :=
  (SubscriptionManager.notifyLoop BytesToHash SubscriptionManagerAddress).
Local Abbreviation NotifySubscribers :=
  (SubscriptionManager.NotifySubscribers BytesToHash SubscriptionManagerAddress).
Local Abbreviation subscriptionID := (ComputeSubscriptionID Keccak256Hash).

(** The [ID] of a record is the hash of its identity components. *)
Local Abbreviation hashed sub :=
  (ID sub = subscriptionID (TargetContract sub) (EventSignature sub)
              (SubscriberContract sub)).

Lemma identity_ok_SetSubscription db id sub :
  identity_ok Keccak256Hash db → ID sub = id → hashed sub →
  identity_ok Keccak256Hash (statedb.SetSubscription db id sub).
Proof.
  intros Hdb Hid Hh. apply map_Forall_insert_2; [|done].
  split; [done|]. by rewrite <- Hid.
Qed.

Lemma identity_ok_get db id sub :
  identity_ok Keccak256Hash db → statedb.GetSubscription db id = Some sub →
  ID sub = id ∧ hashed sub.
Proof.
  intros Hdb Hget. destruct (Hdb id sub Hget) as [Hid Hh].
  split; [done|]. by rewrite Hid.
Qed.

Lemma identity_ok_notifyLoop eventData origin subscribers : ∀ db callbacks,
  identity_ok Keccak256Hash db → Forall (λ sub, hashed sub) subscribers →
  identity_ok Keccak256Hash (notifyLoop eventData origin subscribers db callbacks).1.1.
Proof.
  induction subscribers as [|sub rest IH]; intros db callbacks Hdb Hall; [done|].
  apply Forall_cons in Hall as [Hsub Hall].
  cbn [SubscriptionManager.notifyLoop].
  assert (H1 : identity_ok Keccak256Hash
                 (notifyOne eventData origin db callbacks sub).1.1).
  { destruct (notifyOne_cases BytesToHash SubscriptionManagerAddress
                eventData origin db callbacks sub)
      as [(_ & _ & ->)|[(_ & _ & ->)|(_ & _ & ->)]]; cbn [fst]; [|done..].
    by apply identity_ok_SetSubscription. }
  destruct (notifyOne eventData origin db callbacks sub) as [[db1 cbs1] b].
  specialize (IH db1 cbs1 H1 Hall).
  by destruct (notifyLoop _ _ rest _ _) as [[db2 cbs2] bs2].
Qed.

(** X13. In the empty registry, and after any manager operation on a
    registry where it held, every record is stored under its own [ID] and
    that [ID] is the hash [ComputeSubscriptionID] of the record's target,
    event signature and subscriber: no operation stores a record under a
    foreign identity or changes the identity components of one. *)
Theorem identity_kept :
  identity_ok Keccak256Hash emptyStateDB
  ∧ ∀ db, identity_ok Keccak256Hash db →
      (∀ target eventSig subscriber callback selector gasLimit gasPrice,
         identity_ok Keccak256Hash
           (Subscribe db target eventSig subscriber callback selector
              gasLimit gasPrice).1)
      ∧ (∀ target eventSig subscriber,
           identity_ok Keccak256Hash (Unsubscribe db target eventSig subscriber).1)
      ∧ (∀ target eventSig eventData origin,
           identity_ok Keccak256Hash
             (NotifySubscribers db target eventSig eventData origin).1)
      ∧ (∀ id amount,
           identity_ok Keccak256Hash (SubscriptionManager.Deposit db id amount).1)
      ∧ (∀ id amount,
           identity_ok Keccak256Hash (SubscriptionManager.Withdraw db id amount).1)
      ∧ (∀ id gasUsed,
           identity_ok Keccak256Hash (SubscriptionManager.RefundGas db id gasUsed))
      ∧ (∀ id gasLimit gasPrice,
           identity_ok Keccak256Hash
             (SubscriptionManager.UpdateSubscription db id gasLimit gasPrice).1).
Proof.
  split; [apply map_Forall_empty|]. intros db Hdb. split_and!.
  - intros. unfold SubscriptionManager.Subscribe.
    destruct (match statedb.GetSubscription db _ with
              | Some existing => Active existing | None => false end);
      cbn [fst]; [done|].
    by apply identity_ok_SetSubscription.
  - intros. unfold SubscriptionManager.Unsubscribe.
    destruct (statedb.GetSubscription db _) as [sub|] eqn:Hget; [|done].
    destruct (identity_ok_get _ _ _ Hdb Hget) as [Hid Hh].
    destruct (Active sub); cbn [negb fst]; [|done].
    by apply identity_ok_SetSubscription.
  - intros. rewrite NotifySubscribers_loop. cbn zeta. cbn [fst].
    apply identity_ok_notifyLoop; [done|].
    apply Forall_forall. intros sub (id & _ & Hget)%GetSubscribers_stored.
    by destruct (identity_ok_get _ _ _ Hdb Hget).
  - intros id amount. unfold SubscriptionManager.Deposit.
    destruct (statedb.GetSubscription db id) as [sub|] eqn:Hget; [|done].
    destruct (identity_ok_get _ _ _ Hdb Hget) as [Hid Hh].
    by apply identity_ok_SetSubscription.
  - intros id amount. unfold SubscriptionManager.Withdraw.
    destruct (statedb.GetSubscription db id) as [sub|] eqn:Hget; [|done].
    destruct (identity_ok_get _ _ _ Hdb Hget) as [Hid Hh].
    destruct (DepositBalance sub <? amount); [done|].
    by apply identity_ok_SetSubscription.
  - intros id gasUsed. unfold SubscriptionManager.RefundGas.
    destruct (statedb.GetSubscription db id) as [sub|] eqn:Hget; [|done].
    destruct (identity_ok_get _ _ _ Hdb Hget) as [Hid Hh].
    by apply identity_ok_SetSubscription.
  - intros id gasLimit gasPrice. unfold SubscriptionManager.UpdateSubscription.
    destruct (statedb.GetSubscription db id) as [sub|] eqn:Hget; [|done].
    destruct (identity_ok_get _ _ _ Hdb Hget) as [Hid Hh].
    destruct (Active sub); cbn [negb fst]; [|done].
    by apply identity_ok_SetSubscription.
Qed.

(** X14. An operation addressed to one identity leaves the record of
    every other identity as it was: [Deposit], [Withdraw], [RefundGas] and
    [UpdateSubscription] on [id], and [Subscribe] and [Unsubscribe] for
    arguments that hash to [id], do not touch what is stored under
    [id' ≠ id]. *)
Theorem other_records_untouched db id id' :
  id ≠ id' →
  (∀ amount, statedb.GetSubscription (SubscriptionManager.Deposit db id amount).1 id'
             = statedb.GetSubscription db id')
  ∧ (∀ amount, statedb.GetSubscription (SubscriptionManager.Withdraw db id amount).1 id'
               = statedb.GetSubscription db id')
  ∧ (∀ gasUsed, statedb.GetSubscription (SubscriptionManager.RefundGas db id gasUsed) id'
                = statedb.GetSubscription db id')
  ∧ (∀ gasLimit gasPrice,
       statedb.GetSubscription
         (SubscriptionManager.UpdateSubscription db id gasLimit gasPrice).1 id'
       = statedb.GetSubscription db id')
  ∧ (∀ target eventSig subscriber callback selector gasLimit gasPrice,
       subscriptionID target eventSig subscriber = id →
       statedb.GetSubscription
         (Subscribe db target eventSig subscriber callback selector
            gasLimit gasPrice).1 id'
       = statedb.GetSubscription db id')
  ∧ (∀ target eventSig subscriber,
       subscriptionID target eventSig subscriber = id →
       statedb.GetSubscription (Unsubscribe db target eventSig subscriber).1 id'
       = statedb.GetSubscription db id').
Proof.
  intros Hne. split_and!.
  - intros. unfold SubscriptionManager.Deposit.
    destruct (statedb.GetSubscription db id); [|done]. by apply get_set_ne.
  - intros. unfold SubscriptionManager.Withdraw.
    destruct (statedb.GetSubscription db id) as [sub|]; [|done].
    destruct (DepositBalance sub <? amount); [done|]. by apply get_set_ne.
  - intros. unfold SubscriptionManager.RefundGas.
    destruct (statedb.GetSubscription db id); [|done]. by apply get_set_ne.
  - intros. unfold SubscriptionManager.UpdateSubscription.
    destruct (statedb.GetSubscription db id) as [sub|]; [|done].
    destruct (Active sub); cbn [negb fst]; [|done]. by apply get_set_ne.
  - intros * Hid. unfold SubscriptionManager.Subscribe. rewrite Hid.
    destruct (match statedb.GetSubscription db id with
              | Some existing => Active existing | None => false end);
      cbn [fst]; [done|].
    rewrite get_AddLog. by apply get_set_ne.
  - intros * Hid. unfold SubscriptionManager.Unsubscribe. rewrite Hid.
    destruct (statedb.GetSubscription db id) as [sub|]; [|done].
    destruct (Active sub); cbn [negb fst]; [|done].
    rewrite get_AddLog. by apply get_set_ne.
Qed.

(** X15. The log only grows, and only three operations write to it:
    [Deposit], [Withdraw], [RefundGas] and [UpdateSubscription] leave the
    log as it is, on success and on failure; [Subscribe] and
    [Unsubscribe] append at most one entry and [NotifySubscribers]
    appends entries; none of them changes or drops an earlier entry. *)
Theorem log_append_only db :
  (∀ id amount, logs (SubscriptionManager.Deposit db id amount).1 = logs db)
  ∧ (∀ id amount, logs (SubscriptionManager.Withdraw db id amount).1 = logs db)
  ∧ (∀ id gasUsed, logs (SubscriptionManager.RefundGas db id gasUsed) = logs db)
  ∧ (∀ id gasLimit gasPrice,
       logs (SubscriptionManager.UpdateSubscription db id gasLimit gasPrice).1
       = logs db)
  ∧ (∀ target eventSig subscriber callback selector gasLimit gasPrice,
       let db' := (Subscribe db target eventSig subscriber callback selector
                     gasLimit gasPrice).1 in
       logs db `prefix_of` logs db'
       ∧ (length (logs db') ≤ S (length (logs db)))%nat)
  ∧ (∀ target eventSig subscriber,
       let db' := (Unsubscribe db target eventSig subscriber).1 in
       logs db `prefix_of` logs db'
       ∧ (length (logs db') ≤ S (length (logs db)))%nat)
  ∧ (∀ target eventSig eventData origin,
       logs db `prefix_of`
         logs (NotifySubscribers db target eventSig eventData origin).1).
Proof.
  split_and!.
  - intros. unfold SubscriptionManager.Deposit.
    by destruct (statedb.GetSubscription db id).
  - intros. unfold SubscriptionManager.Withdraw.
    destruct (statedb.GetSubscription db id) as [sub|]; [|done].
    by destruct (DepositBalance sub <? amount).
  - intros. unfold SubscriptionManager.RefundGas.
    by destruct (statedb.GetSubscription db id).
  - intros. unfold SubscriptionManager.UpdateSubscription.
    destruct (statedb.GetSubscription db id) as [sub|]; [|done].
    by destruct (Active sub).
  - intros. subst db'. unfold SubscriptionManager.Subscribe.
    destruct (match statedb.GetSubscription db _ with
              | Some existing => Active existing | None => false end);
      cbn [fst logs statedb.AddLog statedb.SetSubscription].
    + split; [done|lia].
    + split; [by apply prefix_app_r|]. rewrite length_app. cbn. lia.
  - intros. subst db'. unfold SubscriptionManager.Unsubscribe.
    destruct (statedb.GetSubscription db _) as [sub|]; [|split; [done|cbn; lia]].
    destruct (Active sub); cbn [negb fst logs statedb.AddLog statedb.SetSubscription].
    + split; [by apply prefix_app_r|]. rewrite length_app. cbn. lia.
    + split; [done|lia].
  - intros. rewrite NotifySubscribers_loop. cbn zeta. cbn [fst].
    destruct (notifyLoop_output BytesToHash SubscriptionManagerAddress eventData
                origin (statedb.GetSubscribers db target eventSig) db []) as [_ Hl].
    rewrite Hl. by apply prefix_app_r.
Qed.

End Kept.

(** * Further properties: records are kept *)

Section SoftDelete.
Variable Keccak256Hash : list (list byte) -> Hash.
Variable BytesToHash : list byte -> Hash.
Variable SubscriptionManagerAddress : Address.
Implicit Types (db : StateDB) (id : Hash) (sub : Subscription).
Implicit Types (subscribers : list Subscription).

Local Abbreviation Subscribe :=
  (SubscriptionManager.Subscribe Keccak256Hash BytesToHash SubscriptionManagerAddress).
Local Abbreviation Unsubscribe :=
  (SubscriptionManager.Unsubscribe Keccak256Hash BytesToHash SubscriptionManagerAddress).
Local Abbreviation notifyOne :=
  (SubscriptionManager.notifyOne BytesToHash SubscriptionManagerAddress).
Local Abbreviation notifyLoop :=
  (SubscriptionManager.notifyLoop BytesToHash SubscriptionManagerAddress).
Local Abbreviation NotifySubscribers :=
  (SubscriptionManager.NotifySubscribers BytesToHash SubscriptionManagerAddress).

Lemma is_Some_SetSubscription db id id' sub :
  is_Some (statedb.GetSubscription db id) →
  is_Some (statedb.GetSubscription (statedb.SetSubscription db id' sub) id).
Proof.
  intros H. destruct (decide (id' = id)) as [->|Hne].
  - rewrite get_set_eq. eauto.
  - by rewrite get_set_ne.
Qed.

Lemma is_Some_notifyLoop eventData origin subscribers id : ∀ db callbacks,
  is_Some (statedb.GetSubscription db id) →
  is_Some (statedb.GetSubscription
             (notifyLoop eventData origin subscribers db callbacks).1.1 id).
Proof.
  induction subscribers as [|sub rest IH]; intros db callbacks H; [done|].
  cbn [SubscriptionManager.notifyLoop].
  assert (H1 : is_Some (statedb.GetSubscription
                          (notifyOne eventData origin db callbacks sub).1.1 id)).
  { destruct (notifyOne_cases BytesToHash SubscriptionManagerAddress
                eventData origin db callbacks sub)
      as [(_ & _ & ->)|[(_ & _ & ->)|(_ & _ & ->)]]; cbn [fst]; [|done..].
    by apply is_Some_SetSubscription. }
  destruct (notifyOne eventData origin db callbacks sub) as [[db1 cbs1] b].
  specialize (IH db1 cbs1 H1).
  by destruct (notifyLoop _ _ rest _ _) as [[db2 cbs2] bs2].
Qed.

(** X16. No operation erases a record: an identity that has a record
    still has one after [Subscribe], [Unsubscribe], [NotifySubscribers],
    [Deposit], [Withdraw], [RefundGas] or [UpdateSubscription], whatever
    their arguments; and [Deposit], [Withdraw], [RefundGas] and
    [UpdateSubscription], to whichever identity they are addressed, leave
    its [Active] flag, [ID], target, event signature and subscriber as
    they were. *)
Theorem records_kept db id sub :
  statedb.GetSubscription db id = Some sub →
  (∀ target eventSig subscriber callback selector gasLimit gasPrice,
     is_Some (statedb.GetSubscription
                (Subscribe db target eventSig subscriber callback selector
                   gasLimit gasPrice).1 id))
  ∧ (∀ target eventSig subscriber,
       is_Some (statedb.GetSubscription
                  (Unsubscribe db target eventSig subscriber).1 id))
  ∧ (∀ target eventSig eventData origin,
       is_Some (statedb.GetSubscription
                  (NotifySubscribers db target eventSig eventData origin).1 id))
  ∧ (∀ db', (∃ id2 amount, db' = (SubscriptionManager.Deposit db id2 amount).1)
            ∨ (∃ id2 amount, db' = (SubscriptionManager.Withdraw db id2 amount).1)
            ∨ (∃ id2 gasUsed, db' = SubscriptionManager.RefundGas db id2 gasUsed)
            ∨ (∃ id2 gasLimit gasPrice,
                 db' = (SubscriptionManager.UpdateSubscription db id2 gasLimit gasPrice).1) →
       ∃ sub', statedb.GetSubscription db' id = Some sub'
               ∧ Active sub' = Active sub
               ∧ ID sub' = ID sub
               ∧ TargetContract sub' = TargetContract sub
               ∧ EventSignature sub' = EventSignature sub
               ∧ SubscriberContract sub' = SubscriberContract sub).
Proof.
  intros Hget.
  assert (Hsome : is_Some (statedb.GetSubscription db id)) by eauto.
  assert (Hset : ∀ id2 (f : Subscription → Subscription),
            (∀ s, Active (f s) = Active s ∧ ID (f s) = ID s
                  ∧ TargetContract (f s) = TargetContract s
                  ∧ EventSignature (f s) = EventSignature s
                  ∧ SubscriberContract (f s) = SubscriberContract s) →
            ∀ old, statedb.GetSubscription db id2 = Some old →
            ∃ sub', statedb.GetSubscription
                      (statedb.SetSubscription db id2 (f old)) id = Some sub'
                    ∧ Active sub' = Active sub ∧ ID sub' = ID sub
                    ∧ TargetContract sub' = TargetContract sub
                    ∧ EventSignature sub' = EventSignature sub
                    ∧ SubscriberContract sub' = SubscriberContract sub).
  { intros id2 f Hf old Hold. destruct (decide (id2 = id)) as [->|Hne].
    - rewrite get_set_eq. exists (f old). split; [done|].
      rewrite Hget in Hold. injection Hold as <-. apply Hf.
    - rewrite get_set_ne by done. exists sub. by rewrite Hget. }
  assert (Hid : ∃ sub', statedb.GetSubscription db id = Some sub'
               ∧ Active sub' = Active sub ∧ ID sub' = ID sub
               ∧ TargetContract sub' = TargetContract sub
               ∧ EventSignature sub' = EventSignature sub
               ∧ SubscriberContract sub' = SubscriberContract sub)
    by (exists sub; by rewrite Hget).
  split_and!.
  - intros. unfold SubscriptionManager.Subscribe.
    destruct (match statedb.GetSubscription db _ with
              | Some existing => Active existing | None => false end);
      cbn [fst]; [done|].
    rewrite get_AddLog. by apply is_Some_SetSubscription.
  - intros. unfold SubscriptionManager.Unsubscribe.
    destruct (statedb.GetSubscription db
                (ComputeSubscriptionID Keccak256Hash target eventSig subscriber))
      as [s|] eqn:Hs; [|done].
    destruct (Active s); cbn [negb fst]; [|done].
    rewrite get_AddLog. by apply is_Some_SetSubscription.
  - intros. rewrite NotifySubscribers_loop. cbn zeta. cbn [fst].
    by apply is_Some_notifyLoop.
  - intros db' [(id2 & amount & ->)|[(id2 & amount & ->)|[(id2 & gasUsed & ->)
                |(id2 & gasLimit & gasPrice & ->)]]].
    + unfold SubscriptionManager.Deposit.
      destruct (statedb.GetSubscription db id2) as [old|] eqn:Hold; [|done].
      cbn [fst].
      by apply (Hset id2 (λ s, setDepositBalance s (DepositBalance s + amount))).
    + unfold SubscriptionManager.Withdraw.
      destruct (statedb.GetSubscription db id2) as [old|] eqn:Hold; [|done].
      destruct (DepositBalance old <? amount); [done|]. cbn [fst].
      by apply (Hset id2 (λ s, setDepositBalance s (DepositBalance s - amount))).
    + unfold SubscriptionManager.RefundGas.
      destruct (statedb.GetSubscription db id2) as [old|] eqn:Hold; [|done].
      by apply (Hset id2 (λ s, types.RefundGas s gasUsed)).
    + unfold SubscriptionManager.UpdateSubscription.
      destruct (statedb.GetSubscription db id2) as [old|] eqn:Hold; [|done].
      destruct (Active old); cbn [negb fst]; [|done].
      by apply (Hset id2 (λ s, setGas s gasLimit gasPrice)).
Qed.

End SoftDelete.

(** * Further properties: the persisted form is stable *)

Section Stable.
Variable Keccak256Hash : list (list byte) -> Hash.
Variable wire : Type.
Variable rlp_Encode : subscriptionRLP -> option wire.
Variable rlp_Decode : wire -> option subscriptionRLP.

Local Abbreviation EncodeRLP := (EncodeRLP wire rlp_Encode).
Local Abbreviation DecodeRLP := (DecodeRLP Keccak256Hash wire rlp_Decode).

(** X17. Given an rlp codec that decodes what it encodes, every record
    that [DecodeRLP] produces has the hash of its own target, event
    signature and subscriber as [ID], and encoding it and decoding again
    gives back that very record, [ID] included. *)
Theorem DecodeRLP_stable (w w' : wire) (s : Subscription) :
  (∀ x w, rlp_Encode x = Some w → rlp_Decode w = Some x) →
  DecodeRLP w = Some s →
  EncodeRLP s = Some w' →
  ID s = ComputeSubscriptionID Keccak256Hash (TargetContract s)
           (EventSignature s) (SubscriberContract s)
  ∧ DecodeRLP w' = Some s.
Proof.
  intros Hcodec Hdec Henc. unfold types.DecodeRLP in Hdec.
  destruct (rlp_Decode w) as [dec|]; [|done].
  injection Hdec as <-. split; [reflexivity|].
  unfold types.EncodeRLP in Henc. cbn in Henc.
  apply Hcodec in Henc. unfold types.DecodeRLP. by rewrite Henc.
Qed.

End Stable.

(** * Further properties: subscribe, fund, notify *)

Section EndToEnd.
Variable Keccak256Hash : list (list byte) -> Hash.
Variable BytesToHash : list byte -> Hash.
Variable SubscriptionManagerAddress : Address.
Implicit Types (db : StateDB) (id : Hash) (sub : Subscription).

Local Abbreviation Subscribe :=
  (SubscriptionManager.Subscribe Keccak256Hash BytesToHash SubscriptionManagerAddress).
Local Abbreviation NotifySubscribers :=
  (SubscriptionManager.NotifySubscribers BytesToHash SubscriptionManagerAddress).
Local Abbreviation notifyLoop :=
  (SubscriptionManager.notifyLoop BytesToHash SubscriptionManagerAddress).
Local Abbreviation subscriptionID := (ComputeSubscriptionID Keccak256Hash).

(** A record written under a fresh identity is enumerated for its own
    (target, event signature), also after it is overwritten in place. *)
Lemma GetSubscribers_fresh db id sub sub' l :
  statedb.GetSubscription db id = None →
  sub' ∈ statedb.GetSubscribers
           (statedb.SetSubscription
              (statedb.AddLog (statedb.SetSubscription db id sub) l) id sub')
           (TargetContract sub') (EventSignature sub').
Proof.
  intros Hnone. unfold statedb.GetSubscribers, statedb.GetSubscription in *.
  apply list_elem_of_filter. split; [done|].
  apply list_elem_of_omap. exists id. split.
  - cbn. rewrite lookup_insert_eq, Hnone. apply elem_of_app. right.
    apply list_elem_of_here.
  - cbn. apply lookup_insert_eq.
Qed.

(** X18. Over a well-formed registry and for an identity with no record:
    after [Subscribe] and a [Deposit] that covers [gasLimit * gasPrice],
    [NotifySubscribers] for the subscribed (target, event signature)
    returns a callback for the new subscription, addressed to the given
    callback address with payload [selector ++ eventData], the subscribed
    gas limit and price and the given origin, and leaves the subscription
    with [amount - gasLimit * gasPrice]. *)
Theorem Subscribe_Deposit_Notify
    db target eventSig subscriber callback selector gasLimit gasPrice
    amount eventData origin :
  let id := subscriptionID target eventSig subscriber in
  wf db → statedb.GetSubscription db id = None →
  gasLimit * gasPrice ≤ amount →
  let db1 := (Subscribe db target eventSig subscriber callback selector
                gasLimit gasPrice).1 in
  let r2 := SubscriptionManager.Deposit db1 id amount in
  let r3 := NotifySubscribers r2.1 target eventSig eventData origin in
  r2.2 = None
  ∧ {| SubscriptionID := id;
       SubscriberAddress := subscriber;
       cbCallbackAddress := callback;
       CallbackData := selector ++ eventData;
       cbGasLimit := gasLimit;
       cbGasPrice := gasPrice;
       OriginalOrigin := origin |} ∈ r3.2
  ∧ SubscriptionManager.GetBalance r3.1 id = amount - gasLimit * gasPrice.
Proof.
  intros id Hwf Hnone Hcover db1 r2 r3.
  set (rec0 := {| ID := id; TargetContract := target; EventSignature := eventSig;
                  SubscriberContract := subscriber; CallbackAddress := callback;
                  CallbackSelector := selector; GasLimit := gasLimit;
                  GasPrice := gasPrice; DepositBalance := 0; Active := true |}).
  set (rec1 := setDepositBalance rec0 (0 + amount)).
  set (l := SubscriptionManager.createdLog BytesToHash SubscriptionManagerAddress
              id target eventSig subscriber).
  assert (Hdb1 : db1 = statedb.AddLog (statedb.SetSubscription db id rec0) l).
  { subst db1. unfold SubscriptionManager.Subscribe. fold id. by rewrite Hnone. }
  assert (Hr2 : r2 = (statedb.SetSubscription db1 id rec1, None)).
  { subst r2. unfold SubscriptionManager.Deposit.
    by rewrite Hdb1, get_AddLog, get_set_eq. }
  assert (Hwf2 : wf r2.1).
  { rewrite Hr2, Hdb1. cbn [fst].
    apply wf_SetSubscription; [|done].
    apply wf_AddLog. by apply wf_SetSubscription. }
  assert (He : eligible rec1 = true).
  { unfold eligible, HasSufficientDeposit, GasCost. cbn. apply Z.leb_le. lia. }
  assert (Hin : rec1 ∈ statedb.GetSubscribers r2.1 target eventSig).
  { rewrite Hr2, Hdb1. cbn [fst].
    apply (GetSubscribers_fresh db id rec0 rec1 l Hnone). }
  split_and!.
  - by rewrite Hr2.
  - subst r3. rewrite NotifySubscribers_loop. cbn zeta. cbn [snd].
    destruct (notifyLoop_output BytesToHash SubscriptionManagerAddress eventData
                origin (statedb.GetSubscribers r2.1 target eventSig) r2.1 [])
      as [Hc _].
    rewrite Hc, app_nil_l.
    apply list_elem_of_fmap. exists rec1. split; [reflexivity|].
    by apply list_elem_of_filter.
  - subst r3. rewrite NotifySubscribers_loop. cbn zeta. cbn [fst].
    unfold SubscriptionManager.GetBalance.
    change id with (ID rec1).
    rewrite (notifyLoop_charged BytesToHash SubscriptionManagerAddress eventData
               origin (statedb.GetSubscribers r2.1 target eventSig) r2.1 [] rec1);
      [|by apply GetSubscribers_NoDup|done|done].
    unfold charged, GasCost. cbn. lia.
Qed.

End EndToEnd.

(** * Concrete runs of the further properties *)

Lemma Unsubscribe_active_witness :
  statedb.GetSubscription dbFunded exID = Some (exRecord 1000 500000000 true)
  ∧ Active (exRecord 1000 500000000 true) = true
  ∧ SubscriptionManager.GetBalance dbCancelled exID = 500000000.
Proof.
  assert (Hget : statedb.GetSubscription dbFunded exID
                 = Some (exRecord 1000 500000000 true)) by run.
  split_and!; [exact Hget | reflexivity |].
  exact (proj1 (proj2 (proj2 (Unsubscribe_active concatHash rawBytesToHash
    exManagerAddress dbFunded exTarget exEventSig exSubscriber _ Hget eq_refl)))).
Defined.

Lemma Unsubscribe_excludes_witness :
  wf dbFunded
  ∧ ∀ cb, cb ∈ (SubscriptionManager.NotifySubscribers rawBytesToHash
                  exManagerAddress dbCancelled exTarget exEventSig [xff] exOrigin).2 →
          SubscriptionID cb ≠ exID.
Proof.
  split; [exact wf_dbFunded|].
  exact (Unsubscribe_excludes concatHash rawBytesToHash exManagerAddress dbFunded
           exTarget exEventSig exSubscriber wf_dbFunded
           exTarget exEventSig [xff] exOrigin).
Defined.

Lemma Deposit_exact_witness :
  statedb.GetSubscription dbCancelled exID = Some (exRecord 1000 500000000 false)
  ∧ SubscriptionManager.GetBalance
      (SubscriptionManager.Deposit dbCancelled exID 5).1 exID = 500000000 + 5.
Proof.
  assert (Hget : statedb.GetSubscription dbCancelled exID
                 = Some (exRecord 1000 500000000 false)) by run.
  split; [exact Hget|].
  exact (proj1 (proj2 (proj2 (Deposit_exact dbCancelled exID 5 _ Hget)))).
Defined.

Lemma Deposit_Withdraw_cancel_witness :
  statedb.GetSubscription dbFunded exID = Some (exRecord 1000 500000000 true)
  ∧ 0 ≤ DepositBalance (exRecord 1000 500000000 true)
  ∧ SubscriptionManager.Withdraw
      (SubscriptionManager.Deposit dbFunded exID 7).1 exID 7 = (dbFunded, None).
Proof.
  assert (Hget : statedb.GetSubscription dbFunded exID
                 = Some (exRecord 1000 500000000 true)) by run.
  assert (Hpos : 0 ≤ DepositBalance (exRecord 1000 500000000 true)) by (cbn; lia).
  split_and!; [exact Hget | exact Hpos |].
  exact (proj1 (Deposit_Withdraw_cancel dbFunded exID 7 _ Hget) Hpos).
Defined.

Lemma UpdateSubscription_active_only_witness :
  statedb.GetSubscription dbCancelled exID = Some (exRecord 1000 500000000 false)
  ∧ Active (exRecord 1000 500000000 false) = false
  ∧ SubscriptionManager.UpdateSubscription dbCancelled exID 1 1
    = (dbCancelled, Some ErrInvalidSubscription).
Proof.
  assert (Hget : statedb.GetSubscription dbCancelled exID
                 = Some (exRecord 1000 500000000 false)) by run.
  split_and!; [exact Hget | reflexivity |].
  exact (proj2 (UpdateSubscription_active_only dbCancelled exID 1 1 _ Hget) eq_refl).
Defined.

Lemma DeductGas_RefundGas_net_witness :
  HasSufficientDeposit (exRecord 1000 500000000 true) = true
  ∧ is_uint64 (GasLimit (exRecord 1000 500000000 true))
  ∧ is_uint64 40000
  ∧ 40000 ≤ GasLimit (exRecord 1000 500000000 true)
  ∧ types.RefundGas (DeductGas (exRecord 1000 500000000 true)).1 40000
    = setDepositBalance (exRecord 1000 500000000 true)
        (DepositBalance (exRecord 1000 500000000 true)
         - 40000 * GasPrice (exRecord 1000 500000000 true)).
Proof.
  assert (Hs : HasSufficientDeposit (exRecord 1000 500000000 true) = true)
    by reflexivity.
  assert (Hl : is_uint64 (GasLimit (exRecord 1000 500000000 true)))
    by (unfold is_uint64; cbn; lia).
  assert (Hu : is_uint64 40000) by (unfold is_uint64; lia).
  assert (Hle : 40000 ≤ GasLimit (exRecord 1000 500000000 true)) by (cbn; lia).
  split_and!; [exact Hs | exact Hl | exact Hu | exact Hle |].
  exact (proj1 (proj2 (DeductGas_RefundGas_net _ 40000 Hs Hl Hu Hle))).
Defined.

Lemma NotifySubscribers_records_witness :
  wf dbFunded
  ∧ (statedb.GetSubscription
       (SubscriptionManager.NotifySubscribers rawBytesToHash exManagerAddress
          dbFunded exTarget exEventSig [xff] exOrigin).1 exID
     = statedb.GetSubscription dbFunded exID
     ∨ ∃ sub, statedb.GetSubscription dbFunded exID = Some sub
              ∧ eligible sub = true
              ∧ statedb.GetSubscription
                  (SubscriptionManager.NotifySubscribers rawBytesToHash
                     exManagerAddress dbFunded exTarget exEventSig [xff] exOrigin).1
                  exID
                = Some (setDepositBalance sub (DepositBalance sub - GasCost sub))).
Proof.
  split; [exact wf_dbFunded|].
  exact (NotifySubscribers_records rawBytesToHash exManagerAddress dbFunded
           exTarget exEventSig [xff] exOrigin exID wf_dbFunded).
Defined.

Lemma NotifySubscribers_conserves_witness :
  wf dbFunded
  ∧ totalDeposits
      (SubscriptionManager.NotifySubscribers rawBytesToHash exManagerAddress
         dbFunded exTarget exEventSig [xff] exOrigin).1
    + totalCharge
        (SubscriptionManager.NotifySubscribers rawBytesToHash exManagerAddress
           dbFunded exTarget exEventSig [xff] exOrigin).2
    = totalDeposits dbFunded.
Proof.
  split; [exact wf_dbFunded|].
  exact (NotifySubscribers_conserves rawBytesToHash exManagerAddress dbFunded
           exTarget exEventSig [xff] exOrigin wf_dbFunded).
Defined.

(** The two sides of the run above. *)
Example NotifySubscribers_conserves_values :
  totalDeposits dbFunded = 500000000
  ∧ totalDeposits
      (SubscriptionManager.NotifySubscribers rawBytesToHash exManagerAddress
         dbFunded exTarget exEventSig [xff] exOrigin).1 = 400000000
  ∧ totalCharge
      (SubscriptionManager.NotifySubscribers rawBytesToHash exManagerAddress
         dbFunded exTarget exEventSig [xff] exOrigin).2 = 100000000.
Proof. split_and!; run. Qed.

Lemma other_records_untouched_witness :
  exID ≠ exID2
  ∧ statedb.GetSubscription dbTwo exID
    = Some (exRecord 1000 500000000 true)
  ∧ statedb.GetSubscription dbTwo exID2 = Some exRecord2
  ∧ statedb.GetSubscription
      (SubscriptionManager.Deposit dbTwo exID 5).1 exID2 = Some exRecord2
  ∧ statedb.GetSubscription
      (SubscriptionManager.Withdraw dbTwo exID 5).1 exID2 = Some exRecord2
  ∧ statedb.GetSubscription
      (SubscriptionManager.Unsubscribe concatHash rawBytesToHash exManagerAddress
         dbTwo exTarget exEventSig exSubscriber).1 exID2 = Some exRecord2.
Proof.
  assert (Hne : exID ≠ exID2) by (by vm_compute).
  assert (Hget : statedb.GetSubscription dbTwo exID
                 = Some (exRecord 1000 500000000 true)) by run.
  assert (Hget2 : statedb.GetSubscription dbTwo exID2 = Some exRecord2) by run.
  pose proof (other_records_untouched concatHash rawBytesToHash exManagerAddress
                dbTwo exID exID2 Hne) as (Hd & Hw & _ & _ & _ & Hu).
  split_and!; [exact Hne | exact Hget | exact Hget2
              | exact (eq_trans (Hd 5) Hget2)
              | exact (eq_trans (Hw 5) Hget2)
              | exact (eq_trans (Hu exTarget exEventSig exSubscriber eq_refl) Hget2)].
Defined.

(** The operations of the run above do change the record they address. *)
Example other_records_untouched_values :
  SubscriptionManager.GetBalance
    (SubscriptionManager.Deposit dbTwo exID 5).1 exID = 500000005
  ∧ SubscriptionManager.GetBalance
      (SubscriptionManager.Withdraw dbTwo exID 5).1 exID = 499999995.
Proof. split; run. Qed.

Lemma records_kept_witness :
  statedb.GetSubscription dbFunded exID = Some (exRecord 1000 500000000 true)
  ∧ is_Some (statedb.GetSubscription dbCancelled exID).
Proof.
  assert (Hget : statedb.GetSubscription dbFunded exID
                 = Some (exRecord 1000 500000000 true)) by run.
  split; [exact Hget|].
  exact (proj1 (proj2 (records_kept concatHash rawBytesToHash exManagerAddress
                         dbFunded exID _ Hget)) exTarget exEventSig exSubscriber).
Defined.

Lemma DecodeRLP_stable_witness :
  (∀ (x w : subscriptionRLP), Some x = Some w → Some w = Some x)
  ∧ DecodeRLP concatHash subscriptionRLP Some exPersisted
    = Some (exRecord 1000 500000000 true)
  ∧ EncodeRLP subscriptionRLP Some (exRecord 1000 500000000 true)
    = Some exPersisted
  ∧ ID (exRecord 1000 500000000 true)
    = ComputeSubscriptionID concatHash exTarget exEventSig exSubscriber.
Proof.
  assert (Hcodec : ∀ (x w : subscriptionRLP), Some x = Some w → Some w = Some x)
    by (intros x w H; by rewrite H).
  split_and!; [exact Hcodec | reflexivity | reflexivity |].
  exact (proj1 (DecodeRLP_stable concatHash subscriptionRLP Some Some
                  exPersisted exPersisted
                  (exRecord 1000 500000000 true) Hcodec eq_refl eq_refl)).
Defined.

Lemma Subscribe_Deposit_Notify_witness :
  wf emptyStateDB
  ∧ statedb.GetSubscription emptyStateDB exID = None
  ∧ 100000 * 1000 ≤ 500000000
  ∧ SubscriptionManager.GetBalance
      (SubscriptionManager.NotifySubscribers rawBytesToHash exManagerAddress
         dbFunded exTarget exEventSig [xff] exOrigin).1 exID
    = 500000000 - 100000 * 1000.
Proof.
  assert (Hnone : statedb.GetSubscription emptyStateDB exID = None) by reflexivity.
  assert (Hcover : 100000 * 1000 ≤ 500000000) by lia.
  split_and!; [exact wf_empty | exact Hnone | exact Hcover |].
  exact (proj2 (proj2 (Subscribe_Deposit_Notify concatHash rawBytesToHash
    exManagerAddress emptyStateDB exTarget exEventSig exSubscriber exSubscriber
    exSelector 100000 1000 500000000 [xff] exOrigin wf_empty Hnone Hcover))).
Defined.
